(** * NeuroScreen: the Phase-1 permeability run and the dashboard's data paths

    A shallow embedding of [phase1/predict_bbb_drugs.py] and of the data
    handling of [ui/app.py].  Tables are pandas data frames: a list of column
    names and a list of rows of cells.  Python exceptions are values of
    [exn]; code that touches the file system, the random generator or the
    page is written in a state-and-exception monad in which the state
    survives a raised exception, as it does in Python.

    scikit-learn, joblib and plotly are not part of the repository: their
    entry points are section variables, called with the arguments the source
    passes. *)

From Stdlib Require Import QArith.
From stdpp Require Import base strings list gmap.

Local Open Scope string_scope.
Local Open Scope list_scope.

(** ** Python: exceptions and effects *)

Module Py.

Inductive exn : Type :=
| KeyError (key : string)
| IndexError (msg : string)
| ValueError (msg : string)
| TypeError (msg : string)
| AttributeError (msg : string)
| OSError (msg : string)
| ParserError (msg : string)
| StopException.

(** [except Exception] catches everything but the script-control
    exception [st.stop()] raises, which derives from [BaseException]. *)
Definition is_Exception (e : exn) : bool :=
  match e with
  | StopException => false
  | _ => true
  end.

Inductive result (A : Type) : Type :=
| Ok (a : A)
| Raise (e : exn).
Arguments Ok {A} a.
Arguments Raise {A} e.

(** A computation over a state [S] that may raise. *)
Definition M (S A : Type) : Type := S -> result A * S.

Definition ret {S A} (a : A) : M S A := fun s => (Ok a, s).

Definition bind {S A B} (c : M S A) (k : A -> M S B) : M S B :=
  fun s =>
    match c s with
    | (Ok a, s') => k a s'
    | (Raise e, s') => (Raise e, s')
    end.

Definition lift {S A} (r : result A) : M S A := fun s => (r, s).

Definition raise {S A} (e : exn) : M S A := fun s => (Raise e, s).

Definition modify {S} (f : S -> S) : M S unit := fun s => (Ok tt, f s).

(** [try: c except Exception as e: h e] *)
Definition try_except {S A} (c : M S A) (h : exn -> M S A) : M S A :=
  fun s =>
    match c s with
    | (Ok a, s') => (Ok a, s')
    | (Raise e, s') => if is_Exception e then h e s' else (Raise e, s')
    end.

(** [for x in xs: body x] *)
Fixpoint for_each {S A} (xs : list A) (body : A -> M S unit) : M S unit :=
  match xs with
  | [] => ret tt
  | x :: xs' => bind (body x) (fun _ => for_each xs' body)
  end.

(** The pure fragment: [result] is itself a monad. *)
Definition rbind {A B} (r : result A) (k : A -> result B) : result B :=
  match r with
  | Ok a => k a
  | Raise e => Raise e
  end.

Fixpoint rmap_all {A B} (f : A -> result B) (xs : list A) : result (list B) :=
  match xs with
  | [] => Ok []
  | x :: xs' =>
      rbind (f x) (fun y => rbind (rmap_all f xs') (fun ys => Ok (y :: ys)))
  end.

End Py.

Import Py.

Declare Scope py_scope.
Delimit Scope py_scope with py.
Notation "x <- c ;; k" := (bind c (fun x => k))
  (at level 20, c at level 99, k at level 200, right associativity) : py_scope.
Notation "c ;; k" := (bind c (fun _ => k))
  (at level 100, k at level 200, right associativity) : py_scope.
Notation "x <~ r ;; k" := (rbind r (fun x => k))
  (at level 20, r at level 99, k at level 200, right associativity) : py_scope.
Local Open Scope py_scope.

(** ** pandas: the operations the two programs use *)

Module Pandas.

(** A cell holds text, a number, or the missing value NaN.  A frame is its
    column labels and its rows; labels are looked up by first occurrence, as
    tables read from CSV have distinct labels, and a row shorter than the
    header reads as NaN beyond its end. *)
Inductive cell : Type :=
| CStr (s : string)
| CNum (q : Q)
| CNaN.

#[global] Instance Q_eq_dec : EqDecision Q.
Proof. solve_decision. Defined.

#[global] Instance cell_eq_dec : EqDecision cell.
Proof. solve_decision. Defined.

Definition Series : Type := list cell.

Record DataFrame : Type := mkFrame {
  columns : list string;
  rows : list (list cell)
}.

(** [pd.DataFrame()] *)
Definition empty_frame : DataFrame := mkFrame [] [].

(** [df.empty]: some axis has length zero. *)
Definition df_empty (df : DataFrame) : bool :=
  match columns df, rows df with
  | [], _ => true
  | _, [] => true
  | _, _ => false
  end.

Fixpoint col_index (c : string) (cols : list string) : option nat :=
  match cols with
  | [] => None
  | c' :: cols' =>
      if String.eqb c c' then Some 0 else S <$> col_index c cols'
  end.

Definition get_loc (df : DataFrame) (c : string) : result nat :=
  match col_index c (columns df) with
  | Some i => Ok i
  | None => Raise (KeyError c)
  end.

Definition row_get (i : nat) (r : list cell) : cell := nth i r CNaN.

(** The cell of row [r] under column [c]; NaN when there is none. *)
Definition cell_of (df : DataFrame) (c : string) (r : list cell) : cell :=
  match col_index c (columns df) with
  | Some i => row_get i r
  | None => CNaN
  end.

(** [df[c]] *)
Definition getitem (df : DataFrame) (c : string) : result Series :=
  i <~ get_loc df c ;; Ok (map (row_get i) (rows df)).

(** [xs[mask]]: the entries at which the mask is true, in order. *)
Fixpoint boolean_index {A} (xs : list A) (mask : list bool) : list A :=
  match xs, mask with
  | x :: xs', b :: mask' =>
      if b then x :: boolean_index xs' mask' else boolean_index xs' mask'
  | _, _ => []
  end.

(** [df[mask]] *)
Definition loc_mask (df : DataFrame) (mask : list bool) : DataFrame :=
  mkFrame (columns df) (boolean_index (rows df) mask).

(** [df[[c1, ..., cn]]] *)
Definition select (df : DataFrame) (cs : list string) : result DataFrame :=
  idx <~ rmap_all (get_loc df) cs ;;
  Ok (mkFrame cs (map (fun r => map (fun i => row_get i r) idx) (rows df))).

Definition mem (c : string) (cs : list string) : bool :=
  existsb (String.eqb c) cs.

(** [df.drop(columns=cs)]: every label must be present. *)
Definition drop_columns (df : DataFrame) (cs : list string) : result DataFrame :=
  _ <~ rmap_all (get_loc df) cs ;;
  let keep := map (fun c => negb (mem c cs)) (columns df) in
  Ok (mkFrame (boolean_index (columns df) keep)
              (map (fun r => boolean_index r keep) (rows df))).

(** [df.values] *)
Definition values (df : DataFrame) : list (list cell) := rows df.

(** [df.head(n)] *)
Definition head (n : nat) (df : DataFrame) : DataFrame :=
  mkFrame (columns df) (take n (rows df)).

(** [df.iloc[0]]: the first row, labelled by the columns. *)
Definition iloc0 (df : DataFrame) : result (list string * list cell) :=
  match rows df with
  | r :: _ => Ok (columns df, r)
  | [] => Raise (IndexError "single positional indexer is out-of-bounds")
  end.

(** [row[c]] on a row labelled by columns. *)
Definition row_getitem (row : list string * list cell) (c : string) : result cell :=
  match col_index c (fst row) with
  | Some i => Ok (row_get i (snd row))
  | None => Raise (KeyError c)
  end.

(** [a == b] on two scalars: NaN equals nothing, text equals the same
    text, numbers compare by value. *)
Definition cell_eq (a b : cell) : bool :=
  match a, b with
  | CStr s, CStr t => String.eqb s t
  | CNum p, CNum q => Qeq_bool p q
  | _, _ => false
  end.

(** [s == v], elementwise. *)
Definition eq_scalar (s : Series) (v : cell) : list bool :=
  map (fun c => cell_eq c v) s.

(** [c >= m] for a number [m]: NaN compares false, text cannot be
    compared with a number. *)
Definition cell_ge (c : cell) (m : Q) : result bool :=
  match c with
  | CNum q => Ok (Qle_bool m q)
  | CNaN => Ok false
  | CStr _ => Raise (TypeError "'>=' not supported between instances of 'str' and 'float'")
  end.

(** [s >= m], elementwise. *)
Definition ge_scalar (s : Series) (m : Q) : result (list bool) :=
  rmap_all (fun c => cell_ge c m) s.

Fixpoint assoc (k : string) (d : list (string * Z)) : option Z :=
  match d with
  | [] => None
  | (k', v) :: d' => if String.eqb k k' then Some v else assoc k d'
  end.

(** [s.map(d)] for a dict [d] with text keys: a value that is not a key
    becomes NaN. *)
Definition map_dict (d : list (string * Z)) (c : cell) : cell :=
  match c with
  | CStr s =>
      match assoc s d with
      | Some v => CNum (inject_Z v)
      | None => CNaN
      end
  | _ => CNaN
  end.

Definition Series_map (d : list (string * Z)) (s : Series) : Series :=
  map (map_dict d) s.

(** [s.unique()]: the distinct values in order of first appearance (one
    NaN is kept). *)
Definition cell_same (a b : cell) : bool :=
  match a, b with
  | CNaN, CNaN => true
  | _, _ => cell_eq a b
  end.

Fixpoint unique_from (seen : list cell) (s : Series) : Series :=
  match s with
  | [] => []
  | c :: s' =>
      if existsb (cell_same c) seen then unique_from seen s'
      else c :: unique_from (c :: seen) s'
  end.

Definition unique (s : Series) : Series := unique_from [] s.

End Pandas.

Import Pandas.

(** ** The file system

    Paths map to files.  A CSV file is kept as the frame it holds (what
    [to_csv] is given and what [read_csv] gives back); a pickle as the object
    it holds; [OtherFile] is content that [read_csv] rejects.  Writes
    replace the file at the path and do not fail: permissions and disk space
    are outside the model. *)

Module Fs.

Inductive file (Model : Type) : Type :=
| CsvFile (df : DataFrame)
| PickleFile (m : Model)
| OtherFile.
Arguments CsvFile {Model} df.
Arguments PickleFile {Model} m.
Arguments OtherFile {Model}.

(** [os.path.join(a, b)] for a relative [b]. *)
Definition os_path_join (a b : string) : string := a ++ "/" ++ b.

End Fs.

Import Fs.

(** ** phase1/predict_bbb_drugs.py *)

Module Phase1.

Definition OUTPUT_DIR : string := "phase1/outputs".
Definition MODEL_PATH : string := os_path_join OUTPUT_DIR "phase1_model.pkl".
Definition CSV_PATH : string := os_path_join OUTPUT_DIR "bbb_positive_drugs_v2.csv".

Definition LABEL : string := "BBB+/BBB-".

(** The columns removed to leave the numerical features. *)
Definition METADATA : list string :=
  ["compound_name"; "IUPAC_name"; "SMILES"; LABEL;
   "Inchi"; "reference"; "group"; "comments"].

(** [{"BBB+": 1, "BBB-": 0}] *)
Definition LABEL_CODES : list (string * Z) := [("BBB+", 1%Z); ("BBB-", 0%Z)].

Definition TEST_SIZE : Q := 2 # 10.
Definition SEED : Z := 42.
Definition N_ESTIMATORS : nat := 200.

Record Split : Type := mkSplit {
  X_train : list (list cell);
  X_test : list (list cell);
  y_train : Series;
  y_test : Series
}.

(** [RandomForestClassifier(n_estimators=..., random_state=...)] *)
Record Forest : Type := RandomForestClassifier {
  n_estimators : nat;
  random_state : option Z
}.

(** The candidate list as the specification words it: the name and SMILES
    of every row labelled BBB+, in the order of the table. *)
Definition name_smiles (df : DataFrame) (r : list cell) : list cell :=
  [cell_of df "compound_name" r; cell_of df "SMILES" r].

Definition bbb_positive_pairs (df : DataFrame) : DataFrame :=
  mkFrame ["compound_name"; "SMILES"]
    (map (name_smiles df)
       (filter (fun r => cell_of df LABEL r = CStr "BBB+") (rows df))).

(** [y_ext] of a table that has the label column. *)
Definition target (df : DataFrame) : Series :=
  Series_map LABEL_CODES (map (cell_of df LABEL) (rows df)).

(** A label the classifier knows. *)
Definition recognized (c : cell) : Prop := c = CStr "BBB+" \/ c = CStr "BBB-".

Section Run.

(** The state of NumPy's global generator, and a fitted model. *)
Variables Rng Model : Type.

(** [train_test_split(X, y, test_size=, random_state=, stratify=)] *)
Variable train_test_split :
  list (list cell) -> Series -> Q -> option Z -> option Series ->
  Rng -> result Split * Rng.

(** [forest.fit(X, y)] *)
Variable fit : Forest -> list (list cell) -> Series -> Rng -> result Model * Rng.

(** [model.predict(X)] *)
Variable predict : Model -> list (list cell) -> result Series.

Variable accuracy_score : Series -> Series -> result Q.
Variable classification_report : Series -> Series -> result string.

Record World : Type := mkWorld {
  fs : gmap string (file Model);
  np_random : Rng
}.

(** A library call that may draw from the global generator. *)
Definition with_rng {A} (f : Rng -> result A * Rng) : M World A :=
  fun w => let (r, g) := f (np_random w) in (r, mkWorld (fs w) g).

Definition write_file (path : string) (f : file Model) : M World unit :=
  modify (fun w => mkWorld (<[path := f]> (fs w)) (np_random w)).

(** [joblib.dump(model, path)] *)
Definition joblib_dump (model : Model) (path : string) : M World unit :=
  write_file path (PickleFile model).

(** [df.to_csv(path, index=False)] *)
Definition to_csv (df : DataFrame) (path : string) : M World unit :=
  write_file path (CsvFile df).

(** What [main] has in its local variables when it returns. *)
Record Run : Type := mkRun {
  split : Split;
  model : Model;
  accuracy : Q;
  report : string;
  final_list : DataFrame
}.

(** [main()], with the table [B3DB_DATA_DICT["B3DB_classification_extended"]]
    as its argument.  The [print] calls are left out: they write to the
    console only. *)
Definition main (df_ext : DataFrame) : M World Run :=
  (* 2. Prepare features (X) and target (y) *)
  features <- lift (drop_columns df_ext METADATA) ;;
  let X_ext := values features in
  labels <- lift (getitem df_ext LABEL) ;;
  let y_ext := Series_map LABEL_CODES labels in
  (* 3. Train/Test Split *)
  sp <- with_rng (train_test_split X_ext y_ext TEST_SIZE (Some SEED) (Some y_ext)) ;;
  (* 4. Train Model *)
  let forest := RandomForestClassifier N_ESTIMATORS (Some SEED) in
  model <- with_rng (fit forest (X_train sp) (y_train sp)) ;;
  (* 5. Evaluate *)
  y_pred <- lift (predict model (X_test sp)) ;;
  acc <- lift (accuracy_score (y_test sp) y_pred) ;;
  rep <- lift (classification_report (y_test sp) y_pred) ;;
  (* 6. Save the Model *)
  joblib_dump model MODEL_PATH ;;
  (* 7. Extract BBB+ Candidates for Phase 2 *)
  labels' <- lift (getitem df_ext LABEL) ;;
  let bbb_positive := loc_mask df_ext (eq_scalar labels' (CStr "BBB+")) in
  final_list <- lift (select bbb_positive ["compound_name"; "SMILES"]) ;;
  to_csv final_list CSV_PATH ;;
  ret (mkRun sp model acc rep final_list).

End Run.

Arguments fs {Rng Model} w.
Arguments np_random {Rng Model} w.
Arguments mkWorld {Rng Model} fs np_random.
Arguments model {Model} r.
Arguments final_list {Model} r.
Arguments split {Model} r.

End Phase1.

(** ** ui/app.py

    One run of the script: the widget values come from the session, the
    page is the list of elements the run emits, and the file system is only
    read.  Page set-up, style sheet and layout containers carry no data and
    are left out, and so are the pictographs in front of labels.
    [load_data] is modelled by its body, that is with a cold
    [st.cache_data] cache. *)

Module App.

Definition FINAL_PATH : string := "final_ranked_candidates.csv".
Definition PAPERS_PATH : string := "phase3/outputs/phase3_papers.csv".

(** The options of the navigation radio. *)
Inductive page : Type :=
| ProjectOverview
| AnalysisDashboard.

(** [st.slider(label, min, max, default)] *)
Record Slider (A : Type) : Type := mkSlider {
  slider_min : A;
  slider_max : A;
  slider_default : A
}.
Arguments mkSlider {A} _ _ _.
Arguments slider_min {A} _.
Arguments slider_max {A} _.

Definition TOP_N_SLIDER : Slider nat := mkSlider 5 100 15.
Definition MIN_CONFIDENCE_SLIDER : Slider Q := mkSlider 0%Q 1%Q 0%Q.

(** The values a slider can return. *)
Definition slider_value (s : Slider Q) (v : Q) : Prop :=
  (slider_min s <= v)%Q /\ (v <= slider_max s)%Q.

(** The widget values of one run. *)
Record Session : Type := mkSession {
  page_selection : page;
  top_n : nat;
  min_confidence : Q;
  search_query : string;
  selectbox_choice : nat
}.

(** A value as an f-string shows it. *)
Inductive display : Type :=
| DCount (n : nat)
| DFixed (digits : nat) (c : cell)
| DPapers (n : Z).

(** [st.column_config.*] *)
Inductive column_config : Type :=
| TextColumn (label : string)
| ProgressColumn (label format : string) (min_value max_value : Q)
| NumberColumn (label : string) (format : option string).

Inductive event (Figure : Type) : Type :=
| OsPathExists (path : string) (found : bool)
| ReadCsv (path : string)
| StError (e : exn)
| StMarkdown (text : string)
| StSubheader (text : string)
| StDivider
| StTextInput (label : string)
| StSelectbox (options : Series) (chosen : cell)
| StMetric (label : string) (value : display)
| StWarning (text : string)
| StInfo (text : string)
| StPlotlyChart (fig : Figure)
| StDataframe (df : DataFrame) (config : list (string * column_config))
| StTechnicalProfile (drug models : cell) (net_positive : Z) (confidence : display)
| StEvidenceStream (drug : cell)
| StEvidenceCard (colour : string) (title pub_year model : cell)
                 (direction : string) (outcomes : cell).
Arguments OsPathExists {Figure} path found.
Arguments ReadCsv {Figure} path.
Arguments StError {Figure} e.
Arguments StMarkdown {Figure} text.
Arguments StSubheader {Figure} text.
Arguments StDivider {Figure}.
Arguments StTextInput {Figure} label.
Arguments StSelectbox {Figure} options chosen.
Arguments StMetric {Figure} label value.
Arguments StWarning {Figure} text.
Arguments StInfo {Figure} text.
Arguments StPlotlyChart {Figure} fig.
Arguments StDataframe {Figure} df config.
Arguments StTechnicalProfile {Figure} drug models net_positive confidence.
Arguments StEvidenceStream {Figure} drug.
Arguments StEvidenceCard {Figure} colour title pub_year model direction outcomes.

(** [f"{x:.nf}"]: text has no format code [f]. *)
Definition format_f (digits : nat) (c : cell) : result display :=
  match c with
  | CStr _ => Raise (ValueError "Unknown format code 'f' for object of type 'str'")
  | _ => Ok (DFixed digits c)
  end.

(** [x.upper()] exists on text only; the card shows the text in capitals. *)
Definition str_upper (c : cell) : result string :=
  match c with
  | CStr s => Ok s
  | _ => Raise (AttributeError "'float' object has no attribute 'upper'")
  end.

Definition DISPLAY_COLS : list string :=
  ["drug_name"; "final_score"; "phase2_score"; "signed_score"; "n_papers"; "confidence"].

Definition COLUMN_CONFIG : list (string * column_config) :=
  [("drug_name", TextColumn "Candidate Drug");
   ("final_score", ProgressColumn "NeuroScreen Score" "%.3f" 0%Q 1%Q);
   ("phase2_score", NumberColumn "Bio-Plausibility" (Some "%.3f"));
   ("signed_score", NumberColumn "Lit. Evidence" (Some "%.2f"));
   ("n_papers", NumberColumn "Papers" None);
   ("confidence", NumberColumn "AI Confidence" (Some "%.0f%%"))].

(** [drug_papers.head(5)] *)
Definition EVIDENCE_LIMIT : nat := 5.

(** [final_df[final_df['confidence'] >= min_confidence].copy()] *)
Definition filter_candidates (final_df : DataFrame) (min_confidence : Q) : result DataFrame :=
  confidence <~ getitem final_df "confidence" ;;
  mask <~ ge_scalar confidence min_confidence ;;
  Ok (loc_mask final_df mask).

(** [papers_df[papers_df["drug"] == selected_drug]] *)
Definition evidence_lookup (papers_df : DataFrame) (selected_drug : cell) : result DataFrame :=
  drug <~ getitem papers_df "drug" ;;
  Ok (loc_mask papers_df (eq_scalar drug selected_drug)).

(** The records the evidence stream iterates over. *)
Definition evidence_records (papers_df : DataFrame) (selected_drug : cell)
  : result (list (list cell)) :=
  drug_papers <~ evidence_lookup papers_df selected_drug ;;
  Ok (rows (head EVIDENCE_LIMIT drug_papers)).

(** The evidence index as the specification words it: the records of a drug
    by exact match on its name, in stored order, cut at the limit. *)
Fixpoint evidence_index (limit : nat) (drug_of : list cell -> cell) (name : string)
    (records : list (list cell)) {struct records} : list (list cell) :=
  match limit, records with
  | 0, _ => []
  | _, [] => []
  | S limit', r :: records' =>
      if decide (drug_of r = CStr name)
      then r :: evidence_index limit' drug_of name records'
      else evidence_index limit drug_of name records'
  end.

(** [c >= m] as the mask sees it on a column without text. *)
Definition confident (m : Q) (c : cell) : bool :=
  match c with
  | CNum q => Qle_bool m q
  | _ => false
  end.

Definition is_text (c : cell) : Prop :=
  match c with CStr _ => True | _ => False end.

Definition text_of (c : cell) : string :=
  match c with CStr s => s | _ => "" end.

(** The card of a record of table [df] whose direction is text. *)
Definition card_of {Figure} (df : DataFrame) (r : list cell) : event Figure :=
  StEvidenceCard
    (if cell_eq (cell_of df "direction" r) (CStr "positive") then "#00E5FF" else "#FF5252")
    (cell_of df "title" r) (cell_of df "pub_year" r) (cell_of df "model" r)
    (text_of (cell_of df "direction" r)) (cell_of df "outcomes" r).

(** The elements [load_data] can put on the trace of a run. *)
Definition loading {Figure} (e : event Figure) : Prop :=
  match e with
  | OsPathExists _ _ | ReadCsv _ | StError _ => True
  | _ => False
  end.

Definition CARD_COLS : list string :=
  ["direction"; "title"; "pub_year"; "model"; "outcomes"].

(** [st.selectbox(label, options)]: the option the user picked, the first
    one by default. *)
Definition selectbox_pick (options : Series) (choice : nat) : cell :=
  match options !! choice with
  | Some c => c
  | None => nth 0 options CNaN
  end.

Section Script.

Variables Model Figure : Type.

(** [px.scatter(df, x="phase2_score", y="signed_score", size="final_score", ...)] *)
Variable px_scatter : DataFrame -> result Figure.

(** [s.str.contains(pattern, case=False, na=False)] *)
Variable str_contains : Series -> string -> result (list bool).

(** [int(x)] on text. *)
Variable int_of_str : string -> result Z.

Local Abbreviation Page := (M (list (event Figure))).
Local Abbreviation files := (gmap string (file Model)).

Definition emit (e : event Figure) : Page unit :=
  modify (fun log => log ++ [e]).

(** [int(x)]: a number is truncated towards zero, NaN has no integer. *)
Definition py_int (c : cell) : result Z :=
  match c with
  | CNum q => Ok (Z.quot (Qnum q) (Zpos (Qden q)))
  | CNaN => Raise (ValueError "cannot convert float NaN to integer")
  | CStr s => int_of_str s
  end.

Definition os_path_exists (fs : files) (path : string) : Page bool :=
  let found := bool_decide (is_Some (fs !! path)) in
  emit (OsPathExists path found) ;; ret found.

Definition read_csv (fs : files) (path : string) : Page DataFrame :=
  emit (ReadCsv path) ;;
  match fs !! path with
  | Some (CsvFile df) => ret df
  | Some _ => raise (ParserError path)
  | None => raise (OSError path)
  end.

Definition load_data (fs : files) : Page (DataFrame * DataFrame) :=
  try_except
    (found <- os_path_exists fs FINAL_PATH ;;
     if negb found then ret (empty_frame, empty_frame)
     else
       final_df <- read_csv fs FINAL_PATH ;;
       papers_found <- os_path_exists fs PAPERS_PATH ;;
       papers_df <- (if papers_found then read_csv fs PAPERS_PATH
                     else ret empty_frame) ;;
       ret (final_df, papers_df))
    (fun e => emit (StError e) ;; ret (empty_frame, empty_frame)).

(** The data status check of the dashboard. *)
Definition status_check (final_df : DataFrame) : Page unit :=
  if df_empty final_df then
    emit (StMetric "Candidates" (DCount 0)) ;;
    emit (StWarning ("Data Pipeline Output Not Found: `" ++ FINAL_PATH ++ "`")) ;;
    raise StopException
  else
    emit (StMetric "Candidates Screened" (DCount (length (rows final_df)))).

(** 1. Macro Analysis *)
Definition landscape_analysis (filtered_df : DataFrame) : Page unit :=
  if negb (df_empty filtered_df) then
    fig <- lift (px_scatter filtered_df) ;;
    emit (StPlotlyChart fig)
  else
    emit (StWarning "No drugs meet the confidence threshold.").

(** 2. Ranked Leaderboard *)
Definition leaderboard (filtered_df : DataFrame) (top_n : nat) : Page unit :=
  emit (StSubheader "Priority Leaderboard") ;;
  if df_empty filtered_df then
    emit (StInfo "No candidates match filters.")
  else
    shown <- lift (select filtered_df DISPLAY_COLS) ;;
    emit (StDataframe (head top_n shown) COLUMN_CONFIG).

Definition evidence_card (row : list string * list cell) : result (event Figure) :=
  direction <~ row_getitem row "direction" ;;
  let direction_color :=
    if cell_eq direction (CStr "positive") then "#00E5FF" else "#FF5252" in
  title <~ row_getitem row "title" ;;
  pub_year <~ row_getitem row "pub_year" ;;
  model <~ row_getitem row "model" ;;
  direction' <~ row_getitem row "direction" ;;
  shown <~ str_upper direction' ;;
  outcomes <~ row_getitem row "outcomes" ;;
  Ok (StEvidenceCard direction_color title pub_year model shown outcomes).

(** The evidence stream of the inspector. *)
Definition evidence_stream (papers_df : DataFrame) (selected_drug : cell) : Page unit :=
  emit (StEvidenceStream selected_drug) ;;
  drug_papers <- lift (evidence_lookup papers_df selected_drug) ;;
  if df_empty drug_papers then
    emit (StInfo "No specific literature entries found in the indexed window.")
  else
    for_each (rows (head EVIDENCE_LIMIT drug_papers))
      (fun r => card <- lift (evidence_card (columns drug_papers, r)) ;; emit card).

(** 3. Deep Dive *)
Definition candidate_inspector (final_df papers_df : DataFrame) (s : Session) : Page unit :=
  emit (StSubheader "Candidate Inspector") ;;
  emit (StTextInput "Search Database") ;;
  dropdown_options <- lift
    (if negb (String.eqb (search_query s) "") then
       names <~ getitem final_df "drug_name" ;;
       mask <~ str_contains names (search_query s) ;;
       Ok (loc_mask final_df mask)
     else Ok (head (top_n s) final_df)) ;;
  if negb (df_empty dropdown_options) then
    options <- lift (getitem dropdown_options "drug_name") ;;
    let selected_drug := selectbox_pick (unique options) (selectbox_choice s) in
    emit (StSelectbox (unique options) selected_drug) ;;
    names <- lift (getitem final_df "drug_name") ;;
    drug_row <- lift (iloc0 (loc_mask final_df (eq_scalar names selected_drug))) ;;
    m1 <- lift (x <~ row_getitem drug_row "final_score" ;; format_f 3 x) ;;
    emit (StMetric "Composite Score" m1) ;;
    m2 <- lift (x <~ row_getitem drug_row "phase2_score" ;; format_f 3 x) ;;
    emit (StMetric "Bio-Plausibility" m2) ;;
    m3 <- lift (x <~ row_getitem drug_row "signed_score" ;; format_f 2 x) ;;
    emit (StMetric "Lit. Sentiment" m3) ;;
    m4 <- lift (x <~ row_getitem drug_row "n_papers" ;; py_int x) ;;
    emit (StMetric "Evidence Count" (DPapers m4)) ;;
    models <- lift (row_getitem drug_row "models") ;;
    net <- lift (x <~ row_getitem drug_row "net_positive" ;; py_int x) ;;
    confidence <- lift (x <~ row_getitem drug_row "confidence" ;; format_f 2 x) ;;
    emit (StTechnicalProfile selected_drug models net confidence) ;;
    evidence_stream papers_df selected_drug
  else
    emit (StInfo "No drugs found matching criteria.").

(** PAGE 2: the analysis dashboard. *)
Definition analysis_dashboard (s : Session) (fs : files) : Page unit :=
  loaded <- load_data fs ;;
  let (final_df, papers_df) := loaded in
  emit (StMarkdown "### Real-time Candidate Prioritization") ;;
  status_check final_df ;;
  emit StDivider ;;
  emit (StSubheader "Landscape Analysis") ;;
  emit (StMarkdown "Visualizing candidate distribution: **Biological Mechanism** vs. **Literature Evidence**.") ;;
  filtered_df <- lift (filter_candidates final_df (min_confidence s)) ;;
  landscape_analysis filtered_df ;;
  leaderboard filtered_df (top_n s) ;;
  emit (StMarkdown "---") ;;
  candidate_inspector final_df papers_df s.

(** The script: the page the navigation radio selects.  The sidebar is where
    the session gets its values; the overview page is fixed text. *)
Definition app (s : Session) (fs : files) : Page unit :=
  emit (StMarkdown "NeuroScreen") ;;
  match page_selection s with
  | ProjectOverview =>
      emit (StMarkdown "### Accelerating Alzheimer's Drug Discovery with AI")
  | AnalysisDashboard => analysis_dashboard s fs
  end.

End Script.

End App.


(** ** A small instance

    Tables and a stand-in for the library calls, on which the statements
    below are run. *)

Module Sample.

Import Phase1 App.

Definition compound (name smiles : string) (label : cell) (mw logp : Q) : list cell :=
  [CStr name; CStr "-"; CStr smiles; label; CStr "-"; CStr "R1"; CStr "A"; CNaN;
   CNum mw; CNum logp].

Definition compound_columns : list string := METADATA ++ ["MW"; "logP"].

Definition compounds : DataFrame :=
  mkFrame compound_columns
    [compound "caffeine" "CN1C=NC2=C1C(=O)N(C(=O)N2C)C" (CStr "BBB+") 194 (-7 # 100);
     compound "atenolol" "CC(C)NCC(O)COC1=CC=C(CC(N)=O)C=C1" (CStr "BBB-") 266 (16 # 100);
     compound "diazepam" "CN1C(=O)CN=C(C2=C1C=CC(Cl)=C2)C1=CC=CC=C1" (CStr "BBB+") 285 (282 # 100)].

(** The same table with one label the classifier does not know. *)
Definition mislabelled : DataFrame :=
  mkFrame compound_columns
    [compound "caffeine" "CN1C=NC2=C1C(=O)N(C(=O)N2C)C" (CStr "BBB+") 194 (-7 # 100);
     compound "atenolol" "CC(C)NCC(O)COC1=CC=C(CC(N)=O)C=C1" (CStr "bbb-") 266 (16 # 100)].

(** A table without the [Inchi] and [comments] columns. *)
Definition short_compounds : DataFrame :=
  mkFrame ["compound_name"; "IUPAC_name"; "SMILES"; LABEL; "reference"; "group"; "MW"]
    [[CStr "caffeine"; CStr "-"; CStr "CN1C=NC2=C1C(=O)N(C(=O)N2C)C"; CStr "BBB+";
      CStr "R1"; CStr "A"; CNum 194]].

(** A table in which no compound crosses the barrier. *)
Definition impermeable : DataFrame :=
  mkFrame compound_columns
    [compound "atenolol" "CC(C)NCC(O)COC1=CC=C(CC(N)=O)C=C1" (CStr "BBB-") 266 (16 # 100);
     compound "cetirizine" "OC(=O)COCCN1CCN(CC1)C(C1=CC=CC=C1)C1=CC=C(Cl)C=C1" (CStr "BBB-")
       389 (17 # 10)].

Definition is_nan (c : cell) : bool :=
  match c with CNaN => true | _ => false end.

(** Holds out the first row; validates the stratification target; draws
    from the generator only when it is given no seed. *)
Definition split_first (X : list (list cell)) (y : Series) (test_size : Q)
    (seed : option Z) (stratify : option Series) (g : nat) : result Split * nat :=
  if existsb is_nan (default [] stratify)
  then (Raise (ValueError "Input y contains NaN."), g)
  else
    let k := match seed with Some _ => 1 | None => S (g mod 2) end in
    (Ok (mkSplit (drop k X) (take k X) (drop k y) (take k y)),
     match seed with Some _ => g | None => S g end).

(** A model is the number of trees and of training rows. *)
Definition count_fit (f : Forest) (X : list (list cell)) (y : Series) (g : nat)
    : result (nat * nat) * nat :=
  if existsb is_nan y
  then (Raise (ValueError "Input y contains NaN."), g)
  else
    match random_state f with
    | Some _ => (Ok (n_estimators f, length X), g)
    | None => (Ok (n_estimators f + g, length X), S g)
    end.

Definition predict_positive (m : nat * nat) (X : list (list cell)) : result Series :=
  Ok (map (fun _ => CNum 1) X).

Definition agreement (y_true y_pred : Series) : result Q :=
  Ok (Z.of_nat (length (List.filter (fun p => cell_eq p.1 p.2) (zip y_true y_pred)))
      # Pos.of_nat (length y_true)).

Definition no_report (y_true y_pred : Series) : result string := Ok "report".

Definition run (df : DataFrame) (w : World nat (nat * nat)) : result (Run (nat * nat)) * World nat (nat * nat) :=
  main nat (nat * nat) split_first count_fit predict_positive agreement no_report df w.

Definition fresh : World nat (nat * nat) := mkWorld ∅ 0.

(** What [run] returns on [compounds] and on [impermeable]. *)
Definition trained : Run (nat * nat) :=
  mkRun _
    (mkSplit [[CNum 266; CNum (16 # 100)]; [CNum 285; CNum (282 # 100)]]
             [[CNum 194; CNum (-7 # 100)]]
             [CNum 0; CNum 1] [CNum 1])
    (200, 2) 1 "report"
    (mkFrame ["compound_name"; "SMILES"]
       [[CStr "caffeine"; CStr "CN1C=NC2=C1C(=O)N(C(=O)N2C)C"];
        [CStr "diazepam"; CStr "CN1C(=O)CN=C(C2=C1C=CC(Cl)=C2)C1=CC=CC=C1"]]).

Definition trained_impermeable : Run (nat * nat) :=
  mkRun _
    (mkSplit [[CNum 389; CNum (17 # 10)]] [[CNum 266; CNum (16 # 100)]]
             [CNum 0] [CNum 0])
    (200, 1) (0 # 1) "report"
    (mkFrame ["compound_name"; "SMILES"] []).

(** A world in which an earlier run has left its two files. *)
Definition used : World nat (nat * nat) :=
  mkWorld (<[CSV_PATH := CsvFile (bbb_positive_pairs compounds)]>
             {[ MODEL_PATH := PickleFile (200, 2) ]}) 7.

(** A ranked table of one candidate and an evidence table of three papers. *)
Definition ranked : DataFrame :=
  mkFrame ["drug_name"; "final_score"; "phase2_score"; "signed_score"; "n_papers";
           "confidence"; "models"; "net_positive"]
    [[CStr "memantine"; CNum (81 # 100); CNum (8 # 10); CNum (6 # 10); CNum 10;
      CNum 72; CStr "mouse"; CNum 4]].

Definition papers : DataFrame :=
  mkFrame ["drug"; "title"; "pub_year"; "model"; "direction"; "outcomes"]
    [[CStr "memantine"; CStr "T1"; CNum 2019; CStr "mouse"; CStr "positive"; CStr "o1"];
     [CStr "Memantine"; CStr "T2"; CNum 2020; CStr "rat"; CStr "negative"; CStr "o2"];
     [CStr "memantine"; CStr "T3"; CNum 2021; CStr "mouse"; CStr "neutral"; CStr "o3"]].

(** A ranked table of four candidates, one of them without a confidence,
    one listed twice. *)
Definition ranking : DataFrame :=
  mkFrame ["drug_name"; "final_score"; "phase2_score"; "signed_score"; "n_papers";
           "confidence"; "models"; "net_positive"]
    [[CStr "memantine"; CNum (81 # 100); CNum (8 # 10); CNum (6 # 10); CNum 10;
      CNum 72; CStr "mouse"; CNum 4];
     [CStr "donepezil"; CNum (7 # 10); CNum (7 # 10); CNum (5 # 10); CNum 3;
      CNum (1 # 2); CStr "rat"; CNum 1];
     [CStr "riluzole"; CNum (6 # 10); CNum (6 # 10); CNum 0; CNum 0;
      CNaN; CStr "mouse"; CNum 0];
     [CStr "memantine"; CNum (2 # 10); CNum (1 # 10); CNum (1 # 10); CNum 1;
      CNum 9; CStr "fly"; CNum 0]].

(** The same header over a row whose confidence is text. *)
Definition ranking_with_text : DataFrame :=
  mkFrame (columns ranking)
    [[CStr "memantine"; CNum (81 # 100); CNum (8 # 10); CNum (6 # 10); CNum 10;
      CStr "high"; CStr "mouse"; CNum 4]].

(** An evidence table in which the second paper on memantine has no
    direction. *)
Definition papers_with_gap : DataFrame :=
  mkFrame ["drug"; "title"; "pub_year"; "model"; "direction"; "outcomes"]
    [[CStr "memantine"; CStr "T1"; CNum 2019; CStr "mouse"; CStr "positive"; CStr "o1"];
     [CStr "memantine"; CStr "T2"; CNum 2020; CStr "rat"; CNaN; CStr "o2"];
     [CStr "memantine"; CStr "T3"; CNum 2021; CStr "mouse"; CStr "neutral"; CStr "o3"]].

(** Both tables on disk; the papers file cannot be parsed. *)
Definition papers_corrupt : gmap string (file unit) :=
  <[ PAPERS_PATH := OtherFile ]> {[ FINAL_PATH := CsvFile ranked ]}.

(** Both tables on disk and readable. *)
Definition both_tables : gmap string (file unit) :=
  <[ PAPERS_PATH := CsvFile papers ]> {[ FINAL_PATH := CsvFile ranked ]}.

(** Only the ranked table with the text confidence is on disk. *)
Definition text_ranking_only : gmap string (file unit) :=
  {[ FINAL_PATH := CsvFile ranking_with_text ]}.

(** The ranked file holds its header and no row. *)
Definition ranked_header_only : gmap string (file unit) :=
  {[ FINAL_PATH := CsvFile (mkFrame (columns ranked) []) ]}.

(** The ranked table is on disk, the papers table is not. *)
Definition ranked_only : gmap string (file unit) :=
  {[ FINAL_PATH := CsvFile ranked ]}.

(** Only the papers table is on disk. *)
Definition papers_only : gmap string (file unit) :=
  {[ PAPERS_PATH := CsvFile papers ]}.

(** The session of a first visit to the dashboard: every widget at its
    default. *)
Definition first_visit : Session := mkSession AnalysisDashboard 15 0 "" 0.

Definition plot (df : DataFrame) : result nat := Ok (length (rows df)).

Definition contains_nothing (s : Series) (pattern : string) : result (list bool) :=
  Ok (map (fun _ => false) s).

Definition no_int (s : string) : result Z :=
  Raise (ValueError "invalid literal for int() with base 10").

(** A visit with a search text that matches no candidate. *)
Definition searching : Session := mkSession AnalysisDashboard 15 0 "zzz" 0.

Definition dashboard (s : Session) (fs : gmap string (file unit)) :=
  analysis_dashboard unit nat plot contains_nothing no_int s fs [].

End Sample.

(** * Properties *)

(** ** Data frames *)

Module PandasFacts.

Lemma boolean_index_map {A} (f : A -> bool) (xs : list A) :
  boolean_index xs (map f xs) = List.filter f xs.
Proof.
  induction xs as [|x xs IH]; simpl; [done|].
  rewrite IH. by destruct (f x).
Qed.

Lemma cell_eq_text (c : cell) (s : string) : cell_eq c (CStr s) = true <-> c = CStr s.
Proof.
  destruct c as [t| |]; simpl; split; try done.
  - intros H. apply String.eqb_eq in H. by subst.
  - intros [= ->]. apply String.eqb_refl.
Qed.

(** Indexing by [col == text] keeps the rows whose cell is that text. *)
Lemma boolean_index_eq_text (f : list cell -> cell) (s : string) (xs : list (list cell)) :
  boolean_index xs (eq_scalar (map f xs) (CStr s)) = filter (fun r => f r = CStr s) xs.
Proof.
  unfold eq_scalar. rewrite map_map, boolean_index_map.
  induction xs as [|x xs IH]; simpl; [done|].
  rewrite filter_cons. destruct (decide (f x = CStr s)) as [Heq|Hne].
  - rewrite (proj2 (cell_eq_text _ _) Heq). by rewrite IH.
  - destruct (cell_eq (f x) (CStr s)) eqn:E; [|done].
    apply cell_eq_text in E. done.
Qed.

Lemma boolean_index_all_true {A} (xs : list A) (mask : list bool) :
  length mask = length xs -> Forall (fun b => b = true) mask ->
  boolean_index xs mask = xs.
Proof.
  revert mask. induction xs as [|x xs IH]; intros [|b mask] Hlen Hall; simpl in *; try done.
  inversion Hall; subst. f_equal. apply IH; [lia|done].
Qed.

Lemma rmap_all_Ok {A B} (f : A -> result B) (xs : list A) (ys : list B) :
  rmap_all f xs = Ok ys -> Forall2 (fun x y => f x = Ok y) xs ys.
Proof.
  revert ys. induction xs as [|x xs IH]; intros ys; simpl.
  - intros [= <-]. constructor.
  - destruct (f x) as [y|e] eqn:Hx; simpl; [|done].
    destruct (rmap_all f xs) as [ys'|e] eqn:Hxs; simpl; [|done].
    intros [= <-]. constructor; [done|]. by apply IH.
Qed.

Lemma rmap_all_length {A B} (f : A -> result B) (xs : list A) (ys : list B) :
  rmap_all f xs = Ok ys -> length ys = length xs.
Proof. intros H. apply rmap_all_Ok in H. symmetry. by eapply Forall2_length. Qed.

Lemma get_loc_Ok (df : DataFrame) (c : string) (i : nat) :
  get_loc df c = Ok i <-> col_index c (columns df) = Some i.
Proof.
  unfold get_loc. destruct (col_index c (columns df)); split; congruence.
Qed.

Lemma getitem_present (df : DataFrame) (c : string) (i : nat) :
  col_index c (columns df) = Some i ->
  getitem df c = Ok (map (cell_of df c) (rows df)).
Proof.
  intros H. unfold getitem, get_loc, cell_of. rewrite H. simpl. done.
Qed.

Lemma getitem_Ok (df : DataFrame) (c : string) (s : Series) :
  getitem df c = Ok s ->
  (exists i, col_index c (columns df) = Some i) /\ s = map (cell_of df c) (rows df).
Proof.
  unfold getitem, get_loc, cell_of.
  destruct (col_index c (columns df)) as [i|]; simpl; [|done].
  intros [= <-]. eauto.
Qed.

Lemma getitem_absent (df : DataFrame) (c : string) :
  col_index c (columns df) = None -> getitem df c = Raise (KeyError c).
Proof. intros H. unfold getitem, get_loc. by rewrite H. Qed.

(** [drop] succeeds only when every label it is given is a column. *)
Lemma drop_columns_present (df out : DataFrame) (cs : list string) (c : string) :
  drop_columns df cs = Ok out -> c ∈ cs -> exists i, col_index c (columns df) = Some i.
Proof.
  unfold drop_columns.
  destruct (rmap_all (get_loc df) cs) as [idx|e] eqn:H; simpl; [|done].
  intros _ Hin. apply rmap_all_Ok in H.
  destruct (proj1 (list_elem_of_lookup _ _) Hin) as [k Hk].
  destruct (Forall2_lookup_l _ _ _ _ _ H Hk) as (i & _ & Hi).
  exists i. by apply get_loc_Ok.
Qed.

Lemma select_pair (df : DataFrame) (a b : string) (i j : nat) :
  col_index a (columns df) = Some i -> col_index b (columns df) = Some j ->
  select df [a; b] = Ok (mkFrame [a; b] (map (fun r => [cell_of df a r; cell_of df b r]) (rows df))).
Proof.
  intros Ha Hb. unfold select, get_loc, cell_of. simpl. rewrite Ha, Hb. simpl. done.
Qed.

End PandasFacts.

(** ** Phase 1 *)

Module Phase1Facts.

Import Phase1 PandasFacts.

Lemma paths_distinct : MODEL_PATH <> CSV_PATH.
Proof. intros H. cbv in H. discriminate H. Qed.

Lemma metadata_has (c : string) :
  c = "compound_name" \/ c = "SMILES" \/ c = LABEL -> c ∈ METADATA.
Proof.
  intros H. apply list_elem_of_In. unfold METADATA. simpl.
  destruct H as [->|[->| ->]]; tauto.
Qed.

(** Once [drop] has accepted the table, step 7 cannot fail, and it builds
    the candidate list of the specification. *)
Lemma extraction_after_drop (df features : DataFrame) :
  drop_columns df METADATA = Ok features ->
  getitem df LABEL = Ok (map (cell_of df LABEL) (rows df)) /\
  select (loc_mask df (eq_scalar (map (cell_of df LABEL) (rows df)) (CStr "BBB+")))
         ["compound_name"; "SMILES"] = Ok (bbb_positive_pairs df).
Proof.
  intros Hd.
  destruct (drop_columns_present _ _ _ "compound_name" Hd) as [i Hi];
    [apply metadata_has; tauto|].
  destruct (drop_columns_present _ _ _ "SMILES" Hd) as [j Hj];
    [apply metadata_has; tauto|].
  destruct (drop_columns_present _ _ _ LABEL Hd) as [k Hk];
    [apply metadata_has; tauto|].
  split; [by eapply getitem_present|].
  rewrite (select_pair _ _ _ i j) by done.
  unfold bbb_positive_pairs, loc_mask. simpl.
  by rewrite boolean_index_eq_text.
Qed.

(** A value [map] does not find in the label dictionary becomes NaN. *)
Lemma unrecognized_maps_to_nan (c : cell) :
  ~ recognized c -> map_dict LABEL_CODES c = CNaN.
Proof.
  unfold recognized. intros Hc. destruct c as [s| |]; simpl; try done.
  destruct (String.eqb s "BBB+") eqn:E1.
  { apply String.eqb_eq in E1. subst. tauto. }
  destruct (String.eqb s "BBB-") eqn:E2.
  { apply String.eqb_eq in E2. subst. tauto. }
  done.
Qed.

Section Run.

Variables Rng Model : Type.
Variable train_test_split :
  list (list cell) -> Series -> Q -> option Z -> option Series ->
  Rng -> result Split * Rng.
Variable fit : Forest -> list (list cell) -> Series -> Rng -> result Model * Rng.
Variable predict : Model -> list (list cell) -> result Series.
Variable accuracy_score : Series -> Series -> result Q.
Variable classification_report : Series -> Series -> result string.

Local Abbreviation main :=
  (Phase1.main Rng Model train_test_split fit predict accuracy_score classification_report).
Local Abbreviation forest := (RandomForestClassifier N_ESTIMATORS (Some SEED)).

(** [main] as a decision tree over the outcomes of its library calls. *)
Lemma main_unfold (df : DataFrame) (w : World Rng Model) :
  main df w =
  match drop_columns df METADATA with
  | Raise e => (Raise e, w)
  | Ok features =>
    match train_test_split (values features) (target df) TEST_SIZE (Some SEED)
            (Some (target df)) (np_random w) with
    | (Raise e, g1) => (Raise e, mkWorld (fs w) g1)
    | (Ok sp, g1) =>
      match fit forest (X_train sp) (y_train sp) g1 with
      | (Raise e, g2) => (Raise e, mkWorld (fs w) g2)
      | (Ok m, g2) =>
        match predict m (X_test sp) with
        | Raise e => (Raise e, mkWorld (fs w) g2)
        | Ok y_pred =>
          match accuracy_score (y_test sp) y_pred with
          | Raise e => (Raise e, mkWorld (fs w) g2)
          | Ok acc =>
            match classification_report (y_test sp) y_pred with
            | Raise e => (Raise e, mkWorld (fs w) g2)
            | Ok rep =>
                (Ok (mkRun Model sp m acc rep (bbb_positive_pairs df)),
                 mkWorld (<[CSV_PATH := CsvFile (bbb_positive_pairs df)]>
                            (<[MODEL_PATH := PickleFile m]> (fs w))) g2)
            end
          end
        end
      end
    end
  end.
Proof.
  unfold Phase1.main, bind, lift, with_rng, joblib_dump, to_csv, write_file, modify, ret.
  destruct (drop_columns df METADATA) as [features|e] eqn:Hd; [|done].
  destruct (extraction_after_drop _ _ Hd) as [Hl Hs].
  rewrite Hl. fold (target df).
  destruct (train_test_split _ _ _ _ _ _) as [[sp|e] g1]; [|done].
  destruct (fit _ _ _ _) as [[m|e] g2]; [|done].
  destruct (predict _ _) as [y_pred|e]; [|done].
  destruct (accuracy_score _ _) as [acc|e]; [|done].
  destruct (classification_report _ _) as [rep|e]; [|done].
  simpl. rewrite Hs. done.
Qed.


(** C4. A run that raises leaves every file as it was: neither the model
    artifact nor the candidate CSV has been written. *)
Theorem failed_run_writes_nothing (df : DataFrame) (w w' : World Rng Model) (e : exn) :
  main df w = (Raise e, w') -> fs w' = fs w.
Proof.
  rewrite main_unfold.
  destruct (drop_columns df METADATA) as [features|e0]; [|by intros [= _ <-]].
  destruct (train_test_split _ _ _ _ _ _) as [[sp|e1] g1]; [|by intros [= _ <-]].
  destruct (fit _ _ _ _) as [[m|e2] g2]; [|by intros [= _ <-]].
  destruct (predict _ _) as [y_pred|e3]; [|by intros [= _ <-]].
  destruct (accuracy_score _ _) as [acc|e4]; [|by intros [= _ <-]].
  destruct (classification_report _ _) as [rep|e5]; [|by intros [= _ <-]].
  discriminate.
Qed.

Section Validation.

(** scikit-learn validates the stratification target and rejects one that
    holds NaN. *)
Hypothesis stratify_validated :
  forall X y test_size seed (stratify : Series) g,
    CNaN ∈ stratify ->
    exists e g', train_test_split X y test_size seed (Some stratify) g = (Raise e, g').

(** C3. A table with a label outside BBB+ and BBB- makes the run raise,
    with no file written. *)
Theorem unrecognized_label_aborts (df : DataFrame) (w : World Rng Model)
    (labels : Series) (c : cell) :
  getitem df LABEL = Ok labels -> c ∈ labels -> ~ recognized c ->
  exists e w', main df w = (Raise e, w') /\ fs w' = fs w.
Proof.
  intros Hl Hin Hc. rewrite main_unfold.
  destruct (drop_columns df METADATA) as [features|e0]; [|by eexists _, _].
  apply getitem_Ok in Hl as [_ ->].
  assert (CNaN ∈ target df) as Hnan.
  { unfold target, Series_map. rewrite <- (unrecognized_maps_to_nan c Hc).
    by apply list_elem_of_fmap_2. }
  destruct (stratify_validated (values features) (target df) TEST_SIZE (Some SEED)
              (target df) (np_random w) Hnan) as (e & g' & ->).
  by eexists _, _.
Qed.

End Validation.

Section Seeded.

(** Given a seed, the split and the fit do not draw from the global
    generator. *)
Hypothesis split_seeded :
  forall X y test_size seed stratify g g',
    (train_test_split X y test_size (Some seed) stratify g).1 =
    (train_test_split X y test_size (Some seed) stratify g').1.
Hypothesis fit_seeded :
  forall n seed X y g g',
    (fit (RandomForestClassifier n (Some seed)) X y g).1 =
    (fit (RandomForestClassifier n (Some seed)) X y g').1.

(** C8. Two runs on the same table, from any two states of the file system
    and of the generator, end alike: the same exception, or the same split,
    model, scores and candidate list, with the same model artifact and the
    same candidate CSV on disk. *)
Theorem phase1_deterministic (df : DataFrame) (w1 w2 : World Rng Model) :
  (main df w1).1 = (main df w2).1 /\
  forall r, (main df w1).1 = Ok r ->
    fs (main df w1).2 !! MODEL_PATH = Some (PickleFile (model r)) /\
    fs (main df w2).2 !! MODEL_PATH = Some (PickleFile (model r)) /\
    fs (main df w1).2 !! CSV_PATH = Some (CsvFile (final_list r)) /\
    fs (main df w2).2 !! CSV_PATH = Some (CsvFile (final_list r)).
Proof.
  rewrite !main_unfold.
  destruct (drop_columns df METADATA) as [features|e0]; [|done].
  pose proof (split_seeded (values features) (target df) TEST_SIZE SEED
                (Some (target df)) (np_random w1) (np_random w2)) as Hs.
  destruct (train_test_split _ _ _ _ _ (np_random w1)) as [[sp|e1] g1],
           (train_test_split _ _ _ _ _ (np_random w2)) as [[sp'|e1'] g1'];
    simpl in Hs; try discriminate Hs; [|by inversion Hs].
  injection Hs as <-.
  pose proof (fit_seeded N_ESTIMATORS SEED (X_train sp) (y_train sp) g1 g1') as Hf.
  destruct (fit _ _ _ g1) as [[m|e2] g2], (fit _ _ _ g1') as [[m'|e2'] g2'];
    simpl in Hf; try discriminate Hf; [|by inversion Hf].
  injection Hf as <-.
  destruct (predict _ _) as [y_pred|e3]; [|done].
  destruct (accuracy_score _ _) as [acc|e4]; [|done].
  destruct (classification_report _ _) as [rep|e5]; [|done].
  simpl. split; [done|]. intros r [= <-]. simpl.
  rewrite !lookup_insert_eq.
  rewrite !(lookup_insert_ne _ CSV_PATH MODEL_PATH) by (intros H; by apply paths_distinct).
  by rewrite !lookup_insert_eq.
Qed.

End Seeded.

End Run.

End Phase1Facts.

(** ** The dashboard *)

Module AppFacts.

Import App PandasFacts.

Lemma evidence_index_take_filter (limit : nat) (drug_of : list cell -> cell)
    (name : string) (records : list (list cell)) :
  evidence_index limit drug_of name records =
  take limit (filter (fun r => drug_of r = CStr name) records).
Proof.
  revert limit. induction records as [|r records IH]; intros limit.
  - by destruct limit.
  - rewrite filter_cons. destruct limit as [|limit]; simpl.
    + by destruct (decide _).
    + destruct (decide (drug_of r = CStr name)); simpl; by rewrite IH.
Qed.

Lemma evidence_lookup_present (papers_df : DataFrame) (name : string) (i : nat) :
  col_index "drug" (columns papers_df) = Some i ->
  evidence_lookup papers_df (CStr name) =
  Ok (mkFrame (columns papers_df)
        (filter (fun r => cell_of papers_df "drug" r = CStr name) (rows papers_df))).
Proof.
  intros Hi. unfold evidence_lookup. rewrite (getitem_present _ _ _ Hi). simpl.
  unfold loc_mask. by rewrite boolean_index_eq_text.
Qed.

(** C5. On an evidence table, the records the stream iterates over are
    those whose [drug] cell is exactly the queried name, in the order of the
    table, cut after the first five: the evidence index of the
    specification at limit five. *)
Theorem evidence_lookup_exact (papers_df : DataFrame) (name : string) (i : nat) :
  col_index "drug" (columns papers_df) = Some i ->
  evidence_records papers_df (CStr name) =
    Ok (take EVIDENCE_LIMIT
          (filter (fun r => cell_of papers_df "drug" r = CStr name) (rows papers_df))) /\
  evidence_records papers_df (CStr name) =
    Ok (evidence_index EVIDENCE_LIMIT (cell_of papers_df "drug") name (rows papers_df)).
Proof.
  intros Hi. unfold evidence_records.
  rewrite (evidence_lookup_present _ _ _ Hi), evidence_index_take_filter. done.
Qed.

(** C9. With every confidence a number of at least 1, the
    minimum-confidence filter returns the whole table at every value the
    slider can take. *)
Theorem confidence_filter_keeps_all (final_df : DataFrame) (m : Q) (i : nat) :
  col_index "confidence" (columns final_df) = Some i ->
  slider_value MIN_CONFIDENCE_SLIDER m ->
  Forall (fun r => exists q, cell_of final_df "confidence" r = CNum q /\ (1 <= q)%Q)
         (rows final_df) ->
  filter_candidates final_df m = Ok final_df.
Proof.
  intros Hi [_ Hm] Hall. unfold filter_candidates.
  rewrite (getitem_present _ _ _ Hi). simpl.
  destruct final_df as [cols rs]. unfold loc_mask, ge_scalar. simpl in *.
  set (f := cell_of (mkFrame cols rs) "confidence") in *. clearbody f.
  assert (rmap_all (fun c => cell_ge c m) (map f rs) = Ok (map (fun _ => true) rs)) as ->.
  { induction Hall as [|r rs' (q & Hq & Hle) _ IH]; simpl; [done|].
    rewrite Hq. simpl.
    rewrite (proj2 (Qle_bool_iff m q)) by (eapply Qle_trans; eauto).
    simpl. by rewrite IH. }
  simpl. do 2 f_equal. rewrite boolean_index_map.
  clear. induction rs as [|r rs IH]; simpl; by f_equal.
Qed.

Section Script.

Variables Model Figure : Type.
Variable px_scatter : DataFrame -> result Figure.
Variable str_contains : Series -> string -> result (list bool).
Variable int_of_str : string -> result Z.

Local Abbreviation load_data := (App.load_data Model Figure).
Local Abbreviation evidence_stream := (App.evidence_stream Figure).
Local Abbreviation analysis_dashboard :=
  (App.analysis_dashboard Model Figure px_scatter str_contains int_of_str).

(** [load_data] itself never raises, and hands back an empty frame for a
    file that is not there. *)
Lemma load_data_returns (fs : gmap string (file Model)) (log : list (event Figure)) :
  exists final_df papers_df log',
    load_data fs log = (Ok (final_df, papers_df), log') /\
    (fs !! FINAL_PATH = None -> final_df = empty_frame) /\
    (fs !! PAPERS_PATH = None -> papers_df = empty_frame).
Proof.
  unfold App.load_data, try_except, bind, os_path_exists, read_csv, emit, modify,
    ret, raise.
  destruct (fs !! FINAL_PATH) as [[final_df|m|]|] eqn:Hf;
    destruct (fs !! PAPERS_PATH) as [[papers_df|m'|]|] eqn:Hp;
    simpl; eexists _, _, _; (split; [reflexivity|]); split; congruence.
Qed.

(** C10. Without the ranked-candidate file, [load_data] returns two empty
    frames having done nothing but test for that file: the papers file is
    neither looked for nor read, whatever the file system holds. *)
Theorem ranked_absent_loads_nothing (fs : gmap string (file Model))
    (log : list (event Figure)) :
  fs !! FINAL_PATH = None ->
  load_data fs log = (Ok (empty_frame, empty_frame), log ++ [OsPathExists FINAL_PATH false]) /\
  ReadCsv PAPERS_PATH ∉ [@OsPathExists Figure FINAL_PATH false].
Proof.
  intros Hf. split.
  - unfold App.load_data, try_except, bind, os_path_exists, emit, modify, ret.
    rewrite Hf. done.
  - intros H. apply list_elem_of_In in H. simpl in H. by destruct H.
Qed.

(** C7. On an evidence table without a row for the drug, the lookup is the
    empty sequence and the stream shows its empty-state notice; nothing is
    raised. *)
Theorem no_evidence_gives_notice (papers_df : DataFrame) (name : string) (i : nat)
    (log : list (event Figure)) :
  col_index "drug" (columns papers_df) = Some i ->
  Forall (fun r => cell_of papers_df "drug" r <> CStr name) (rows papers_df) ->
  evidence_records papers_df (CStr name) = Ok [] /\
  evidence_stream papers_df (CStr name) log =
    (Ok tt, log ++ [StEvidenceStream (CStr name);
                    StInfo "No specific literature entries found in the indexed window."]).
Proof.
  intros Hi Hnone.
  assert (filter (fun r => cell_of papers_df "drug" r = CStr name) (rows papers_df) = [])
    as Hempty.
  { induction Hnone as [|r rs Hr _ IH]; [done|].
    rewrite filter_cons. by destruct (decide _). }
  split.
  - unfold evidence_records. rewrite (evidence_lookup_present _ _ _ Hi), Hempty. done.
  - unfold App.evidence_stream, bind, lift, emit, modify.
    rewrite (evidence_lookup_present _ _ _ Hi), Hempty.
    unfold df_empty. simpl. destruct (columns papers_df); by rewrite <- app_assoc.
Qed.

(** The frame [load_data] substitutes for a missing papers file has no
    [drug] column: the evidence stream raises on it for every drug. *)
Lemma evidence_stream_empty_frame (selected_drug : cell) (log : list (event Figure)) :
  evidence_stream empty_frame selected_drug log =
  (Raise (KeyError "drug"), log ++ [StEvidenceStream selected_drug]).
Proof. reflexivity. Qed.

(** C6, on the code: with the ranked table on disk and the papers table
    absent, a first visit to the dashboard does not reach the empty-state
    notice of the evidence stream; once the chart is drawn the run ends in
    [KeyError: 'drug']. *)
Theorem papers_absent_dashboard_raises (fig : Figure) :
  px_scatter Sample.ranked = Ok fig ->
  exists log,
    analysis_dashboard Sample.first_visit
      {[ FINAL_PATH := CsvFile Sample.ranked ]} [] = (Raise (KeyError "drug"), log) /\
    last log = Some (StEvidenceStream (CStr "memantine")).
Proof.
  intros Hpx. vm_compute in Hpx. vm_compute. rewrite Hpx.
  eexists. split; reflexivity.
Qed.

End Script.

End AppFacts.

(** ** The statements on the sample instance *)

Module Runs.

Import Phase1 App Sample.

Lemma split_first_validates X y test_size seed (stratify : Series) g :
  CNaN ∈ stratify ->
  exists e g', split_first X y test_size seed (Some stratify) g = (Raise e, g').
Proof.
  intros Hin. unfold split_first. simpl.
  assert (existsb is_nan stratify = true) as ->; [|by eexists _, _].
  apply existsb_exists. exists CNaN. split; [by apply list_elem_of_In|done].
Qed.

Lemma split_first_seeded X y test_size seed stratify g g' :
  (split_first X y test_size (Some seed) stratify g).1 =
  (split_first X y test_size (Some seed) stratify g').1.
Proof. unfold split_first. by destruct (existsb _ _). Qed.

Lemma count_fit_seeded n seed X y g g' :
  (count_fit (RandomForestClassifier n (Some seed)) X y g).1 =
  (count_fit (RandomForestClassifier n (Some seed)) X y g').1.
Proof. unfold count_fit. by destruct (existsb _ _). Qed.

Example run_on_compounds :
  (run compounds fresh).1 =
  Ok (mkRun _
        (mkSplit [[CNum 266; CNum (16 # 100)]; [CNum 285; CNum (282 # 100)]]
                 [[CNum 194; CNum (-7 # 100)]]
                 [CNum 0; CNum 1] [CNum 1])
        (200, 2) 1 "report"
        (mkFrame ["compound_name"; "SMILES"]
           [[CStr "caffeine"; CStr "CN1C=NC2=C1C(=O)N(C(=O)N2C)C"];
            [CStr "diazepam"; CStr "CN1C(=O)CN=C(C2=C1C=CC(Cl)=C2)C1=CC=CC=C1"]])).
Proof. reflexivity. Qed.

Example run_on_mislabelled :
  run mislabelled fresh = (Raise (ValueError "Input y contains NaN."), fresh).
Proof. reflexivity. Qed.

Example dashboard_without_ranked :
  dashboard first_visit papers_only =
  (Raise StopException,
   [OsPathExists FINAL_PATH false;
    StMarkdown "### Real-time Candidate Prioritization";
    StMetric "Candidates" (DCount 0);
    StWarning "Data Pipeline Output Not Found: `final_ranked_candidates.csv`"]).
Proof. reflexivity. Qed.

Example evidence_of_memantine :
  evidence_records papers (CStr "memantine") =
  Ok [[CStr "memantine"; CStr "T1"; CNum 2019; CStr "mouse"; CStr "positive"; CStr "o1"];
      [CStr "memantine"; CStr "T3"; CNum 2021; CStr "mouse"; CStr "neutral"; CStr "o3"]].
Proof. reflexivity. Qed.


Lemma failed_run_writes_nothing_witness :
  run mislabelled used = (Raise (ValueError "Input y contains NaN."), used) /\
  fs (run mislabelled used).2 = fs used.
Proof.
  split; [reflexivity|].
  apply (Phase1Facts.failed_run_writes_nothing nat (nat * nat) split_first count_fit
           predict_positive agreement no_report mislabelled used
           (run mislabelled used).2 (ValueError "Input y contains NaN.")).
  reflexivity.
Defined.

Lemma unrecognized_label_aborts_witness :
  exists e w', run mislabelled used = (Raise e, w') /\ fs w' = fs used.
Proof.
  apply (Phase1Facts.unrecognized_label_aborts nat (nat * nat) split_first count_fit
           predict_positive agreement no_report split_first_validates mislabelled used
           [CStr "BBB+"; CStr "bbb-"] (CStr "bbb-")).
  - reflexivity.
  - apply list_elem_of_In. simpl. tauto.
  - unfold recognized. intros [H|H]; discriminate H.
Defined.

Lemma phase1_deterministic_witness :
  (run compounds fresh).1 = (run compounds used).1 /\
  forall r, (run compounds fresh).1 = Ok r ->
    fs (run compounds fresh).2 !! MODEL_PATH = Some (PickleFile (model r)) /\
    fs (run compounds used).2 !! MODEL_PATH = Some (PickleFile (model r)) /\
    fs (run compounds fresh).2 !! CSV_PATH = Some (CsvFile (final_list r)) /\
    fs (run compounds used).2 !! CSV_PATH = Some (CsvFile (final_list r)).
Proof.
  apply (Phase1Facts.phase1_deterministic nat (nat * nat) split_first count_fit
           predict_positive agreement no_report split_first_seeded count_fit_seeded
           compounds fresh used).
Defined.

Lemma evidence_lookup_exact_witness :
  evidence_records papers (CStr "memantine") =
    Ok (take EVIDENCE_LIMIT
          (filter (fun r => cell_of papers "drug" r = CStr "memantine") (rows papers))) /\
  evidence_records papers (CStr "memantine") =
    Ok (evidence_index EVIDENCE_LIMIT (cell_of papers "drug") "memantine" (rows papers)).
Proof.
  apply (AppFacts.evidence_lookup_exact papers "memantine" 0). reflexivity.
Defined.

Lemma confidence_filter_keeps_all_witness :
  slider_value MIN_CONFIDENCE_SLIDER 1 /\ filter_candidates ranked 1 = Ok ranked.
Proof.
  assert (slider_value MIN_CONFIDENCE_SLIDER 1) as Hs.
  { split; unfold Qle; simpl; lia. }
  split; [exact Hs|].
  apply (AppFacts.confidence_filter_keeps_all ranked 1 5); [reflexivity|exact Hs|].
  constructor; [|constructor]. exists 72%Q. split; [reflexivity|].
  unfold Qle. simpl. lia.
Defined.

Lemma ranked_absent_loads_nothing_witness :
  papers_only !! FINAL_PATH = None /\
  load_data unit nat papers_only [] =
    (Ok (empty_frame, empty_frame), [OsPathExists FINAL_PATH false]).
Proof.
  split; [reflexivity|].
  apply (AppFacts.ranked_absent_loads_nothing unit nat papers_only []). reflexivity.
Defined.

Lemma no_evidence_gives_notice_witness :
  evidence_records papers (CStr "donepezil") = Ok [] /\
  evidence_stream nat papers (CStr "donepezil") [] =
    (Ok tt, [StEvidenceStream (CStr "donepezil");
             StInfo "No specific literature entries found in the indexed window."]).
Proof.
  apply (AppFacts.no_evidence_gives_notice nat papers "donepezil" 0 []); [reflexivity|].
  repeat constructor; discriminate.
Defined.

Lemma papers_absent_dashboard_raises_witness :
  exists log,
    dashboard first_visit ranked_only = (Raise (KeyError "drug"), log) /\
    last log = Some (StEvidenceStream (CStr "memantine")).
Proof.
  apply (AppFacts.papers_absent_dashboard_raises unit nat plot contains_nothing no_int 1).
  reflexivity.
Defined.

End Runs.

(** ** Data frames: dropping and selecting columns *)

Module FrameFacts.

Import PandasFacts.

Lemma mem_false (c : string) (cs : list string) : mem c cs = false <-> c ∉ cs.
Proof.
  unfold mem. induction cs as [|c' cs IH]; simpl.
  - split; [intros _ H; by apply elem_of_nil in H|done].
  - rewrite orb_false_iff, IH, not_elem_of_cons. split.
    + intros [H ?]. split; [|done]. intros ->. by rewrite String.eqb_refl in H.
    + intros [H ?]. split; [|done]. by apply String.eqb_neq.
Qed.

Lemma col_index_None (c : string) (cols : list string) :
  col_index c cols = None <-> c ∉ cols.
Proof.
  induction cols as [|c' cols IH]; simpl.
  - split; [intros _ H; by apply elem_of_nil in H|done].
  - rewrite not_elem_of_cons. destruct (String.eqb c c') eqn:E.
    + apply String.eqb_eq in E. split; [done|]. intros [? _]. done.
    + apply String.eqb_neq in E. rewrite <- IH.
      destruct (col_index c cols); simpl; split; try done. by intros [_ ?].
Qed.

(** The first label that is not a column is the one [KeyError] names. *)
Lemma get_loc_all_missing (df : DataFrame) (cs : list string) (c0 : string) :
  c0 ∈ cs -> col_index c0 (columns df) = None ->
  exists c, c ∈ cs /\ col_index c (columns df) = None /\
            rmap_all (get_loc df) cs = Raise (KeyError c).
Proof.
  induction cs as [|c cs IH]; intros Hin Hnone.
  - by apply elem_of_nil in Hin.
  - simpl. unfold get_loc at 1.
    destruct (col_index c (columns df)) as [i|] eqn:Hc; simpl.
    + apply elem_of_cons in Hin as [->|Hin]; [congruence|].
      destruct (IH Hin Hnone) as (c1 & H1 & H2 & ->).
      exists c1. split; [by apply elem_of_cons; right|done].
    + exists c. split; [by apply elem_of_cons; left|done].
Qed.

Lemma get_loc_all_present (df : DataFrame) (cs : list string) :
  Forall (fun c => is_Some (col_index c (columns df))) cs ->
  exists idx, rmap_all (get_loc df) cs = Ok idx /\
    forall r, map (fun i => row_get i r) idx = map (fun c => cell_of df c r) cs.
Proof.
  induction 1 as [|c cs [i Hi] _ (idx & Hrm & Hidx)]; simpl.
  - by exists [].
  - unfold get_loc at 1. rewrite Hi. simpl. rewrite Hrm. simpl.
    eexists. split; [done|].
    intros r. simpl. rewrite Hidx. unfold cell_of at 2. by rewrite Hi.
Qed.

(** [df[[c1, ..., cn]]] with every label present: those columns, cell by
    cell, in the order asked for. *)
Lemma select_present (df : DataFrame) (cs : list string) :
  Forall (fun c => is_Some (col_index c (columns df))) cs ->
  select df cs = Ok (mkFrame cs (map (fun r => map (fun c => cell_of df c r) cs) (rows df))).
Proof.
  intros H. destruct (get_loc_all_present _ _ H) as (idx & Hidx & Hcells).
  unfold select. rewrite Hidx. simpl. do 2 f_equal.
  apply map_ext. intros r. apply Hcells.
Qed.

(** A column that is kept sits over the same cells after the drop. *)
Lemma kept_cell (cs cols : list string) (c : string) (r : list cell) (i : nat) :
  mem c cs = false -> col_index c cols = Some i ->
  exists j,
    col_index c (boolean_index cols (map (fun c => negb (mem c cs)) cols)) = Some j /\
    row_get j (boolean_index r (map (fun c => negb (mem c cs)) cols)) = row_get i r.
Proof.
  intros Hc. unfold row_get. revert r i.
  induction cols as [|c' cols IH]; intros r i; simpl; [done|].
  destruct (String.eqb c c') eqn:E.
  - apply String.eqb_eq in E. subst c'. intros [= <-]. rewrite Hc. simpl.
    rewrite String.eqb_refl. exists 0. split; [done|]. by destruct r.
  - destruct (col_index c cols) as [i'|] eqn:Hi; simpl; [|done]. intros [= <-].
    destruct (mem c' cs); simpl.
    + destruct r as [|x r].
      * destruct (IH [] i' eq_refl) as (j & Hj & _). exists j. split; [done|].
        by destruct j.
      * destruct (IH r i' eq_refl) as (j & Hj & Hn). by exists j.
    + rewrite E. destruct r as [|x r].
      * destruct (IH [] i' eq_refl) as (j & Hj & _). exists (S j).
        rewrite Hj. done.
      * destruct (IH r i' eq_refl) as (j & Hj & Hn). exists (S j).
        rewrite Hj. done.
Qed.

Lemma drop_columns_Ok (df out : DataFrame) (cs : list string) :
  drop_columns df cs = Ok out ->
  out = mkFrame (boolean_index (columns df) (map (fun c => negb (mem c cs)) (columns df)))
                (map (fun r => boolean_index r (map (fun c => negb (mem c cs)) (columns df)))
                     (rows df)).
Proof.
  unfold drop_columns. destruct (rmap_all _ _); simpl; [|done]. by intros [= <-].
Qed.

Lemma dropped_not_column (df out : DataFrame) (cs : list string) (c : string) :
  drop_columns df cs = Ok out -> c ∈ cs -> c ∉ columns out.
Proof.
  intros Hd Hin. rewrite (drop_columns_Ok _ _ _ Hd). simpl.
  rewrite boolean_index_map. intros H. apply list_elem_of_In, filter_In in H as [_ H].
  apply negb_true_iff, mem_false in H. done.
Qed.

End FrameFacts.

(** ** Phase 1: what a run reads and what it leaves behind *)

Module Phase1Run.

Import Phase1 PandasFacts FrameFacts Phase1Facts.

Lemma positive_code (c : cell) :
  map_dict LABEL_CODES c = CNum 1 <-> c = CStr "BBB+".
Proof.
  destruct c as [s| |]; simpl; try (split; discriminate).
  destruct (String.eqb s "BBB+") eqn:E1.
  - apply String.eqb_eq in E1. by subst.
  - apply String.eqb_neq in E1. destruct (String.eqb s "BBB-"); split; try discriminate;
      intros [= ->]; done.
Qed.

Section Run.

Variables Rng Model : Type.
Variable train_test_split :
  list (list cell) -> Series -> Q -> option Z -> option Series ->
  Rng -> result Split * Rng.
Variable fit : Forest -> list (list cell) -> Series -> Rng -> result Model * Rng.
Variable predict : Model -> list (list cell) -> result Series.
Variable accuracy_score : Series -> Series -> result Q.
Variable classification_report : Series -> Series -> result string.

Local Abbreviation main :=
  (Phase1.main Rng Model train_test_split fit predict accuracy_score classification_report).
Local Abbreviation main_unfold :=
  (Phase1Facts.main_unfold Rng Model train_test_split fit predict accuracy_score
     classification_report).

(** What a returning run has done, read off [main_unfold]. *)
Lemma main_Ok (df : DataFrame) (w w' : World Rng Model) (r : Run Model) :
  main df w = (Ok r, w') ->
  (exists features, drop_columns df METADATA = Ok features) /\
  final_list r = bbb_positive_pairs df /\
  fs w' = <[CSV_PATH := CsvFile (final_list r)]> (<[MODEL_PATH := PickleFile (model r)]> (fs w)).
Proof.
  rewrite main_unfold.
  destruct (drop_columns df METADATA) as [features|e0]; [|done].
  destruct (train_test_split _ _ _ _ _ _) as [[sp|e1] g1]; [|done].
  destruct (fit _ _ _ _) as [[m|e2] g2]; [|done].
  destruct (predict _ _) as [y_pred|e3]; [|done].
  destruct (accuracy_score _ _) as [acc|e4]; [|done].
  destruct (classification_report _ _) as [rep|e5]; [|done].
  intros [= <- <-]. simpl. eauto.
Qed.

(** X1. A table that lacks one of the eight metadata columns makes [main]
    raise [KeyError] for a missing column at its first statement: no library
    call is made, the generator and the files are as they were. *)
Theorem missing_metadata_raises (df : DataFrame) (w : World Rng Model) (c0 : string) :
  c0 ∈ METADATA -> c0 ∉ columns df ->
  exists c, c ∈ METADATA /\ (c ∉ columns df) /\ main df w = (Raise (KeyError c), w).
Proof.
  intros Hin Hnot. apply col_index_None in Hnot.
  destruct (get_loc_all_missing df METADATA c0 Hin Hnot) as (c & Hc & Hnone & Hr).
  exists c. split; [done|]. split; [by apply col_index_None|].
  rewrite main_unfold. unfold drop_columns. rewrite Hr. done.
Qed.

(** X2. A run that returns has written the fitted model at [MODEL_PATH]
    and the candidate list at [CSV_PATH], and has touched no other path. *)
Theorem run_writes_two_files (df : DataFrame) (w w' : World Rng Model) (r : Run Model) :
  main df w = (Ok r, w') ->
  fs w' !! MODEL_PATH = Some (PickleFile (model r)) /\
  fs w' !! CSV_PATH = Some (CsvFile (final_list r)) /\
  forall p, p <> MODEL_PATH -> p <> CSV_PATH -> fs w' !! p = fs w !! p.
Proof.
  intros H. apply main_Ok in H as (_ & _ & ->). split; [|split].
  - rewrite lookup_insert_ne by (intros E; by apply paths_distinct).
    by rewrite lookup_insert_eq.
  - by rewrite lookup_insert_eq.
  - intros p H1 H2. by rewrite !lookup_insert_ne.
Qed.

(** X4. Once the metadata columns are dropped, the feature matrix and the
    target have one entry per row of the table, and no metadata column (the
    label among them) is a column of the feature matrix. *)
Theorem features_exclude_metadata (df features : DataFrame) :
  drop_columns df METADATA = Ok features ->
  length (values features) = length (rows df) /\
  length (target df) = length (rows df) /\
  Forall (fun c => c ∉ columns features) METADATA.
Proof.
  intros Hd. split; [|split].
  - rewrite (drop_columns_Ok _ _ _ Hd). unfold values. simpl. by rewrite length_map.
  - unfold target, Series_map. by rewrite !length_map.
  - apply Forall_forall. intros c Hc. by eapply dropped_not_column.
Qed.

(** X5. Every column that is not metadata reaches the feature matrix with
    its cells unchanged, row for row. *)
Theorem features_keep_values (df features : DataFrame) (c : string) (k : nat)
    (row : list cell) :
  drop_columns df METADATA = Ok features ->
  c ∉ METADATA -> c ∈ columns df -> rows df !! k = Some row ->
  exists row', values features !! k = Some row' /\ cell_of features c row' = cell_of df c row.
Proof.
  intros Hd Hc Hin Hk. rewrite (drop_columns_Ok _ _ _ Hd). unfold values. cbn [rows].
  rewrite list_lookup_fmap, Hk. cbn [fmap option_fmap option_map]. eexists. split; [done|].
  destruct (col_index c (columns df)) as [i|] eqn:Hi;
    [|by apply col_index_None in Hi].
  destruct (kept_cell METADATA (columns df) c row i) as (j & Hj & Hcell);
    [by apply mem_false|done|].
  unfold cell_of. cbn [columns]. by rewrite Hj, Hi.
Qed.

(** X6. The candidate list of a returning run is the positive class of the
    training target: a row is written to the CSV exactly when its label was
    coded 1, so rows coded 0 or NaN never appear in it. *)
Theorem candidates_are_positive_class (df : DataFrame) (w w' : World Rng Model)
    (r : Run Model) :
  main df w = (Ok r, w') ->
  target df = map (fun row => map_dict LABEL_CODES (cell_of df LABEL row)) (rows df) /\
  rows (final_list r) =
    map (name_smiles df)
      (filter (fun row => map_dict LABEL_CODES (cell_of df LABEL row) = CNum 1) (rows df)).
Proof.
  intros H. apply main_Ok in H as (_ & -> & _). unfold bbb_positive_pairs. simpl.
  split; [unfold target, Series_map; by rewrite map_map|].
  f_equal. apply list_filter_iff. intros row. symmetry. apply positive_code.
Qed.

(** X7. A table without a single BBB+ row is no special case: a returning
    run still writes the candidate CSV, with its two headers and no row. *)
Theorem no_positive_writes_header_only (df : DataFrame) (w w' : World Rng Model)
    (r : Run Model) :
  main df w = (Ok r, w') ->
  Forall (fun row => cell_of df LABEL row <> CStr "BBB+") (rows df) ->
  fs w' !! CSV_PATH = Some (CsvFile (mkFrame ["compound_name"; "SMILES"] [])).
Proof.
  intros H Hall. apply main_Ok in H as (_ & Hl & ->).
  rewrite lookup_insert_eq, Hl. unfold bbb_positive_pairs. do 3 f_equal.
  induction Hall as [|row rs Hr _ IH]; [done|].
  rewrite filter_cons. by destruct (decide _).
Qed.

Section Seeded.

Hypothesis split_seeded :
  forall X y test_size seed stratify g g',
    (train_test_split X y test_size (Some seed) stratify g).1 =
    (train_test_split X y test_size (Some seed) stratify g').1.
Hypothesis fit_seeded :
  forall n seed X y g g',
    (fit (RandomForestClassifier n (Some seed)) X y g).1 =
    (fit (RandomForestClassifier n (Some seed)) X y g').1.

(** X3. Running [main] again on the same table after a run that returned
    returns the same result and leaves the two files as the first run wrote
    them: the writes overwrite, nothing accumulates. *)
Theorem rerun_overwrites (df : DataFrame) (w w1 : World Rng Model) (r : Run Model) :
  main df w = (Ok r, w1) ->
  exists w2, main df w1 = (Ok r, w2) /\ fs w2 = fs w1.
Proof.
  intros H. pose proof H as H0. revert H. rewrite !main_unfold.
  destruct (drop_columns df METADATA) as [features|e0]; [|done].
  destruct (train_test_split _ _ _ _ _ (np_random w)) as [[sp|e1] g1] eqn:Hs; [|done].
  destruct (fit _ _ _ g1) as [[m|e2] g2] eqn:Hf; [|done].
  destruct (predict _ _) as [y_pred|e3] eqn:Hp; [|done].
  destruct (accuracy_score _ _) as [acc|e4] eqn:Ha; [|done].
  destruct (classification_report _ _) as [rep|e5] eqn:Hr; [|done].
  intros [= <- <-]. simpl.
  pose proof (split_seeded (values features) (target df) TEST_SIZE SEED
                (Some (target df)) (np_random w) g2) as Hs'.
  rewrite Hs in Hs'. simpl in Hs'.
  destruct (train_test_split _ _ _ _ _ g2) as [r1 g1']. simpl in Hs'. subst r1.
  pose proof (fit_seeded N_ESTIMATORS SEED (X_train sp) (y_train sp) g1 g1') as Hf'.
  rewrite Hf in Hf'. simpl in Hf'.
  destruct (fit _ _ _ g1') as [r2 g2']. simpl in Hf'. subst r2.
  rewrite Hp, Ha, Hr. eexists. split; [reflexivity|]. simpl.
  apply map_eq. intros p. rewrite !lookup_insert. by repeat case_decide.
Qed.

End Seeded.

End Run.

End Phase1Run.

(** ** The dashboard: loading, filtering, the leaderboard and the evidence
    stream *)

Module DashboardFacts.

Import App PandasFacts FrameFacts.

Lemma cell_of_index (df : DataFrame) (c : string) (i : nat) (r : list cell) :
  col_index c (columns df) = Some i -> cell_of df c r = row_get i r.
Proof. intros H. unfold cell_of. by rewrite H. Qed.

(** The comparison of a column with the threshold: a mask when the column
    has no text, [TypeError] when it has. *)
Lemma ge_scalar_cases (f : list cell -> cell) (m : Q) (rs : list (list cell)) :
  (Forall (fun r => ~ is_text (f r)) rs /\
   ge_scalar (map f rs) m = Ok (map (fun r => confident m (f r)) rs)) \/
  (Exists (fun r => is_text (f r)) rs /\
   ge_scalar (map f rs) m =
     Raise (TypeError "'>=' not supported between instances of 'str' and 'float'")).
Proof.
  unfold ge_scalar. induction rs as [|r rs IH]; simpl.
  - left. by split.
  - destruct (f r) as [s|q|] eqn:Hr; simpl.
    + right. split; [|done]. left. simpl. by rewrite Hr.
    + destruct IH as [[Hall ->]|[Hex ->]]; simpl.
      * left. split; [|done]. constructor; [rewrite Hr; simpl; tauto|done].
      * right. split; [by right|done].
    + destruct IH as [[Hall ->]|[Hex ->]]; simpl.
      * left. split; [|done]. constructor; [rewrite Hr; simpl; tauto|done].
      * right. split; [by right|done].
Qed.

Lemma filter_candidates_Ok (df out : DataFrame) (m : Q) :
  filter_candidates df m = Ok out ->
  (exists i, col_index "confidence" (columns df) = Some i) /\
  Forall (fun r => ~ is_text (cell_of df "confidence" r)) (rows df) /\
  out = mkFrame (columns df)
          (List.filter (fun r => confident m (cell_of df "confidence" r)) (rows df)).
Proof.
  unfold filter_candidates.
  destruct (col_index "confidence" (columns df)) as [i|] eqn:Hi.
  - rewrite (getitem_present _ _ _ Hi). simpl.
    destruct (ge_scalar_cases (cell_of df "confidence") m (rows df))
      as [[Hall ->]|[_ ->]]; simpl; [|done].
    intros [= <-]. split; [by eexists|]. split; [done|].
    unfold loc_mask. by rewrite boolean_index_map.
  - by rewrite (getitem_absent _ _ Hi).
Qed.

Lemma confident_mono (m m' : Q) (c : cell) :
  (m <= m')%Q -> confident m' c = true -> confident m c = true.
Proof.
  intros Hm. destruct c as [s|q|]; simpl; try done.
  rewrite !Qle_bool_iff. intros H. by eapply Qle_trans.
Qed.

Lemma filter_sublist {A} (p q : A -> bool) (xs : list A) :
  (forall x, p x = true -> q x = true) ->
  sublist (List.filter p xs) (List.filter q xs).
Proof.
  intros Hpq. induction xs as [|x xs IH]; simpl; [constructor|].
  destruct (p x) eqn:Hp.
  - rewrite (Hpq x Hp). by constructor.
  - destruct (q x); [by constructor|done].
Qed.

(** X11. On a table whose confidence column holds no text, the filter
    keeps the rows whose confidence is a number at or above the threshold,
    in table order, and drops every row whose confidence is missing, at any
    threshold. *)
Theorem confidence_filter_exact (final_df : DataFrame) (m : Q) :
  "confidence" ∈ columns final_df ->
  Forall (fun r => ~ is_text (cell_of final_df "confidence" r)) (rows final_df) ->
  filter_candidates final_df m =
    Ok (mkFrame (columns final_df)
          (List.filter (fun r => confident m (cell_of final_df "confidence" r))
             (rows final_df))) /\
  forall out r, filter_candidates final_df m = Ok out ->
    cell_of final_df "confidence" r = CNaN -> r ∉ rows out.
Proof.
  intros Hin Hall.
  assert (filter_candidates final_df m =
    Ok (mkFrame (columns final_df)
          (List.filter (fun r => confident m (cell_of final_df "confidence" r))
             (rows final_df)))) as Heq.
  { unfold filter_candidates.
    destruct (col_index "confidence" (columns final_df)) as [i|] eqn:Hi;
      [|by apply col_index_None in Hi].
    rewrite (getitem_present _ _ _ Hi). simpl.
    destruct (ge_scalar_cases (cell_of final_df "confidence") m (rows final_df))
      as [[_ ->]|[Hex _]]; simpl.
    - unfold loc_mask. by rewrite boolean_index_map.
    - apply Exists_exists in Hex as (r & Hr & Ht).
      rewrite Forall_forall in Hall. by destruct (Hall r Hr). }
  split; [done|]. intros out r Hout Hnan. rewrite Heq in Hout. injection Hout as <-.
  simpl. intros H. apply list_elem_of_In, filter_In in H as [_ H].
  by rewrite Hnan in H.
Qed.

(** X12. Raising the threshold only removes rows: what the filter keeps at
    a higher threshold is a sublist of what it keeps at a lower one. *)
Theorem confidence_filter_monotone (final_df out : DataFrame) (m m' : Q) :
  (m <= m')%Q -> filter_candidates final_df m = Ok out ->
  exists out', filter_candidates final_df m' = Ok out' /\
    columns out' = columns out /\ sublist (rows out') (rows out).
Proof.
  intros Hm Hout. apply filter_candidates_Ok in Hout as ([i Hi] & Hall & ->).
  unfold filter_candidates. rewrite (getitem_present _ _ _ Hi). simpl.
  destruct (ge_scalar_cases (cell_of final_df "confidence") m' (rows final_df))
    as [[_ ->]|[Hex _]]; simpl.
  - eexists. split; [done|]. simpl. split; [done|].
    rewrite boolean_index_map. apply filter_sublist.
    intros r. by apply confident_mono.
  - apply Exists_exists in Hex as (r & Hr & Ht).
    rewrite Forall_forall in Hall. by destruct (Hall r Hr).
Qed.

(** X13. One text cell in the confidence column makes the filter raise
    [TypeError], whatever the threshold and however many rows are numeric. *)
Theorem confidence_filter_rejects_text (final_df : DataFrame) (m : Q) (r : list cell) :
  "confidence" ∈ columns final_df ->
  r ∈ rows final_df -> is_text (cell_of final_df "confidence" r) ->
  filter_candidates final_df m =
    Raise (TypeError "'>=' not supported between instances of 'str' and 'float'").
Proof.
  intros Hin Hr Ht. unfold filter_candidates.
  destruct (col_index "confidence" (columns final_df)) as [i|] eqn:Hi;
    [|by apply col_index_None in Hi].
  rewrite (getitem_present _ _ _ Hi). simpl.
  destruct (ge_scalar_cases (cell_of final_df "confidence") m (rows final_df))
    as [[Hall _]|[_ ->]]; [|done].
  rewrite Forall_forall in Hall. by destruct (Hall r Hr).
Qed.

(** X18. The row the inspector profiles is the first row of the ranked
    table that carries the selected name: a later row with the same name is
    never shown. *)
Theorem inspected_row_is_first_match (final_df : DataFrame) (name : string)
    (before after : list (list cell)) (row : list cell) (names : Series) :
  rows final_df = before ++ row :: after ->
  Forall (fun r => cell_of final_df "drug_name" r <> CStr name) before ->
  cell_of final_df "drug_name" row = CStr name ->
  getitem final_df "drug_name" = Ok names ->
  iloc0 (loc_mask final_df (eq_scalar names (CStr name))) = Ok (columns final_df, row).
Proof.
  intros Hrows Hbefore Hrow Hnames. apply getitem_Ok in Hnames as [_ ->].
  unfold iloc0, loc_mask. cbn [rows columns].
  rewrite boolean_index_eq_text, Hrows, filter_app, filter_cons.
  assert (filter (fun r => cell_of final_df "drug_name" r = CStr name) before = []) as ->.
  { clear -Hbefore. induction Hbefore as [|r rs Hr _ IH]; [done|].
    rewrite filter_cons. by destruct (decide _). }
  by destruct (decide _).
Qed.

Section Script.

Variables Model Figure : Type.
Variable px_scatter : DataFrame -> result Figure.
Variable str_contains : Series -> string -> result (list bool).
Variable int_of_str : string -> result Z.

Local Abbreviation load_data := (App.load_data Model Figure).
Local Abbreviation leaderboard := (App.leaderboard Figure).
Local Abbreviation evidence_stream := (App.evidence_stream Figure).
Local Abbreviation evidence_card := (App.evidence_card Figure).
Local Abbreviation candidate_inspector :=
  (App.candidate_inspector Figure str_contains int_of_str).
Local Abbreviation analysis_dashboard :=
  (App.analysis_dashboard Model Figure px_scatter str_contains int_of_str).

Ltac run_load :=
  unfold App.load_data, try_except, bind, os_path_exists, read_csv, emit, modify,
    ret, raise.

(** X8. When the papers file is there but cannot be parsed, [load_data]
    reports the error and returns two empty frames: the ranked table it had
    already read is discarded with it. *)
Theorem unreadable_papers_discard_ranked (fs : gmap string (file Model))
    (log : list (event Figure)) (final_df : DataFrame) (f : file Model) :
  fs !! FINAL_PATH = Some (CsvFile final_df) ->
  fs !! PAPERS_PATH = Some f -> (forall p, f <> CsvFile p) ->
  load_data fs log =
    (Ok (empty_frame, empty_frame),
     log ++ [OsPathExists FINAL_PATH true; ReadCsv FINAL_PATH;
             OsPathExists PAPERS_PATH true; ReadCsv PAPERS_PATH;
             StError (ParserError PAPERS_PATH)]).
Proof.
  intros Hf Hp Hbad. run_load. rewrite Hf, Hp. simpl.
  destruct f as [p|m|]; [by destruct (Hbad p)| |]; simpl;
    by rewrite <- !app_assoc.
Qed.

(** With the ranked file readable, [load_data] returns the stored
    ranked frame together with the stored papers frame, or with an empty
    frame when there is no papers file; [st.error] is not called. *)
Lemma load_data_reads_stored (fs : gmap string (file Model))
    (log : list (event Figure)) (final_df : DataFrame) :
  fs !! FINAL_PATH = Some (CsvFile final_df) ->
  (forall papers_df, fs !! PAPERS_PATH = Some (CsvFile papers_df) ->
     load_data fs log =
       (Ok (final_df, papers_df),
        log ++ [OsPathExists FINAL_PATH true; ReadCsv FINAL_PATH;
                OsPathExists PAPERS_PATH true; ReadCsv PAPERS_PATH])) /\
  (fs !! PAPERS_PATH = None ->
     load_data fs log =
       (Ok (final_df, empty_frame),
        log ++ [OsPathExists FINAL_PATH true; ReadCsv FINAL_PATH;
                OsPathExists PAPERS_PATH false])).
Proof.
  intros Hf. split.
  - intros papers_df Hp. run_load. rewrite Hf, Hp. simpl. by rewrite <- !app_assoc.
  - intros Hp. run_load. rewrite Hf, Hp. simpl. by rewrite <- !app_assoc.
Qed.

Lemma load_data_cases (fs : gmap string (file Model)) (log : list (event Figure)) :
  exists final_df papers_df trace,
    load_data fs log = (Ok (final_df, papers_df), log ++ trace) /\
    (final_df = empty_frame \/ fs !! FINAL_PATH = Some (CsvFile final_df)) /\
    (papers_df = empty_frame \/ fs !! PAPERS_PATH = Some (CsvFile papers_df)) /\
    Forall loading trace.
Proof.
  run_load.
  destruct (fs !! FINAL_PATH) as [[final_df|m|]|] eqn:Hf;
    destruct (fs !! PAPERS_PATH) as [[papers_df|m'|]|] eqn:Hp;
    simpl; rewrite <- ?app_assoc; eexists _, _, _;
    (split; [reflexivity|]); (split; [auto|]); (split; [auto|]);
    repeat constructor.
Qed.

(** X9. [load_data] never raises, only adds to the page, and never makes
    data up: each frame it returns is the content of its file or empty. *)
Theorem load_data_never_raises (fs : gmap string (file Model))
    (log : list (event Figure)) :
  exists final_df papers_df trace,
    load_data fs log = (Ok (final_df, papers_df), log ++ trace) /\
    (final_df = empty_frame \/ fs !! FINAL_PATH = Some (CsvFile final_df)) /\
    (papers_df = empty_frame \/ fs !! PAPERS_PATH = Some (CsvFile papers_df)).
Proof.
  destruct (load_data_cases fs log) as (final_df & papers_df & trace & H1 & H2 & H3 & _).
  by exists final_df, papers_df, trace.
Qed.

(** X10. Whenever the ranked file gives no candidate, because it is absent,
    unreadable, or holds no row, the dashboard shows the count 0 and the
    "not found" warning and stops there: no chart, table or inspector
    follows. *)
Theorem dashboard_stops_without_candidates (s : Session) (fs : gmap string (file Model)) :
  (forall df, fs !! FINAL_PATH = Some (CsvFile df) -> df_empty df = true) ->
  exists trace,
    analysis_dashboard s fs [] =
      (Raise StopException,
       trace ++ [StMarkdown "### Real-time Candidate Prioritization";
                 StMetric "Candidates" (DCount 0);
                 StWarning "Data Pipeline Output Not Found: `final_ranked_candidates.csv`"]) /\
    Forall loading trace.
Proof.
  intros Hempty.
  destruct (load_data_cases fs []) as (final_df & papers_df & trace & Hl & Hf & _ & Ht).
  exists trace. split; [|done].
  assert (df_empty final_df = true) as Hd.
  { destruct Hf as [->|Hf]; [done|by apply Hempty]. }
  unfold App.analysis_dashboard, bind at 1. rewrite Hl. cbn [app].
  unfold bind at 1, emit at 1, modify. unfold App.status_check. rewrite Hd.
  unfold bind, emit, modify, raise. by rewrite <- !app_assoc.
Qed.

(** X14. On a non-empty table that has the six display columns, the
    leaderboard shows those columns of the first [top_n] rows, in the order
    of the table it is given: it does not sort. *)
Theorem leaderboard_shows_first_rows (filtered_df : DataFrame) (top_n : nat)
    (log : list (event Figure)) :
  Forall (fun c => c ∈ columns filtered_df) DISPLAY_COLS ->
  rows filtered_df <> [] ->
  leaderboard filtered_df top_n log =
    (Ok tt,
     log ++ [StSubheader "Priority Leaderboard";
             StDataframe
               (mkFrame DISPLAY_COLS
                  (map (fun r => map (fun c => cell_of filtered_df c r) DISPLAY_COLS)
                     (take top_n (rows filtered_df))))
               COLUMN_CONFIG]).
Proof.
  intros Hcols Hrows. unfold App.leaderboard, bind, lift, emit, modify.
  assert (df_empty filtered_df = false) as ->.
  { unfold df_empty. inversion Hcols as [|c cs Hc _]; subst.
    destruct (columns filtered_df); [by apply elem_of_nil in Hc|].
    by destruct (rows filtered_df). }
  rewrite select_present.
  - unfold head. cbn [rows columns]. rewrite firstn_map, <- app_assoc. done.
  - eapply Forall_impl; [exact Hcols|]. intros c Hc. simpl.
    destruct (col_index c (columns filtered_df)) eqn:E; [by eexists|].
    by apply col_index_None in E.
Qed.

Lemma row_getitem_present (df : DataFrame) (r : list cell) (c : string) :
  c ∈ columns df -> row_getitem (columns df, r) c = Ok (cell_of df c r).
Proof.
  intros Hin. unfold row_getitem, cell_of. simpl.
  destruct (col_index c (columns df)) eqn:E; [done|]. by apply col_index_None in E.
Qed.

(** A card is drawn for a record with a text direction; any other
    direction has no [upper] and raises. *)
Lemma evidence_card_cases (df : DataFrame) (r : list cell) :
  Forall (fun c => c ∈ columns df) CARD_COLS ->
  evidence_card (columns df, r) =
    match cell_of df "direction" r with
    | CStr _ => Ok (card_of df r)
    | _ => Raise (AttributeError "'float' object has no attribute 'upper'")
    end.
Proof.
  intros Hcols. unfold CARD_COLS in Hcols.
  repeat match goal with
         | H : Forall _ (_ :: _) |- _ => apply Forall_cons in H as [? H]
         end.
  unfold App.evidence_card, card_of.
  rewrite !row_getitem_present by done. simpl.
  by destruct (cell_of df "direction" r).
Qed.

Lemma cards_drawn (df : DataFrame) (rs : list (list cell)) (log : list (event Figure)) :
  Forall (fun c => c ∈ columns df) CARD_COLS ->
  Forall (fun r => is_text (cell_of df "direction" r)) rs ->
  for_each rs (fun r => bind (lift (evidence_card (columns df, r))) (fun card => emit Figure card))
    log = (Ok tt, log ++ map (card_of df) rs).
Proof.
  intros Hcols Hall. revert log.
  induction Hall as [|r rs Hr _ IH]; intros log; simpl.
  - unfold ret. by rewrite app_nil_r.
  - unfold bind at 1. unfold bind at 1. unfold lift.
    rewrite (evidence_card_cases _ _ Hcols).
    destruct (cell_of df "direction" r) eqn:Hd; try done.
    unfold emit, modify. rewrite IH. by rewrite <- app_assoc.
Qed.

Lemma cards_interrupted (df : DataFrame) (pre post : list (list cell)) (bad : list cell)
    (log : list (event Figure)) :
  Forall (fun c => c ∈ columns df) CARD_COLS ->
  Forall (fun r => is_text (cell_of df "direction" r)) pre ->
  ~ is_text (cell_of df "direction" bad) ->
  for_each (pre ++ bad :: post)
    (fun r => bind (lift (evidence_card (columns df, r))) (fun card => emit Figure card))
    log = (Raise (AttributeError "'float' object has no attribute 'upper'"),
           log ++ map (card_of df) pre).
Proof.
  intros Hcols Hall Hbad. revert log.
  induction Hall as [|r rs Hr _ IH]; intros log; simpl.
  - unfold bind at 1. unfold bind at 1. unfold lift.
    rewrite (evidence_card_cases _ _ Hcols). rewrite app_nil_r.
    destruct (cell_of df "direction" bad); [exfalso; apply Hbad; exact I|done|done].
  - unfold bind at 1. unfold bind at 1. unfold lift.
    rewrite (evidence_card_cases _ _ Hcols).
    destruct (cell_of df "direction" r) eqn:Hd; try done.
    unfold emit, modify. rewrite IH. by rewrite <- app_assoc.
Qed.

Lemma stream_lookup (papers_df : DataFrame) (name : string) (log : list (event Figure))
    (records : list (list cell)) :
  "drug" ∈ columns papers_df ->
  take EVIDENCE_LIMIT
    (filter (fun r => cell_of papers_df "drug" r = CStr name) (rows papers_df)) = records ->
  records <> [] ->
  evidence_stream papers_df (CStr name) log =
  for_each records
    (fun r => bind (lift (evidence_card (columns papers_df, r)))
                   (fun card => emit Figure card))
    (log ++ [StEvidenceStream (CStr name)]).
Proof.
  intros Hin Hrec Hne. unfold App.evidence_stream, bind at 1, emit at 1, modify.
  destruct (col_index "drug" (columns papers_df)) as [i|] eqn:Hi;
    [|by apply col_index_None in Hi].
  unfold bind at 1, lift. rewrite (AppFacts.evidence_lookup_present _ _ _ Hi).
  unfold df_empty, head. cbn [rows columns]. rewrite Hrec.
  destruct (columns papers_df); [done|].
  destruct (filter _ _); [by subst|done].
Qed.

(** X15. For a drug with evidence, on a table that has the card columns and
    a text direction in each record shown, the stream draws one card per
    record of the lookup, in its order and at most five; the card is cyan
    for the direction "positive" and red for any other. *)
Theorem evidence_stream_draws_cards (papers_df : DataFrame) (name : string)
    (log : list (event Figure)) (records : list (list cell)) :
  Forall (fun c => c ∈ columns papers_df) ("drug" :: CARD_COLS) ->
  take EVIDENCE_LIMIT
    (filter (fun r => cell_of papers_df "drug" r = CStr name) (rows papers_df)) = records ->
  records <> [] ->
  Forall (fun r => is_text (cell_of papers_df "direction" r)) records ->
  evidence_stream papers_df (CStr name) log =
    (Ok tt, log ++ StEvidenceStream (CStr name) :: map (card_of papers_df) records) /\
  length records <= EVIDENCE_LIMIT.
Proof.
  intros Hcols Hrec Hne Htext. apply Forall_cons in Hcols as [Hdrug Hcols]. split.
  - rewrite (stream_lookup _ _ _ _ Hdrug Hrec Hne), (cards_drawn _ _ _ Hcols Htext).
    by rewrite <- app_assoc.
  - subst records. rewrite length_take. lia.
Qed.

(** X16. A record whose direction is missing stops the stream with
    [AttributeError] at its card: the cards of the records before it are
    already on the page, those after it are never drawn. *)
Theorem evidence_stream_stops_at_gap (papers_df : DataFrame) (name : string)
    (log : list (event Figure)) (pre post : list (list cell)) (bad : list cell) :
  Forall (fun c => c ∈ columns papers_df) ("drug" :: CARD_COLS) ->
  take EVIDENCE_LIMIT
    (filter (fun r => cell_of papers_df "drug" r = CStr name) (rows papers_df)) =
    pre ++ bad :: post ->
  Forall (fun r => is_text (cell_of papers_df "direction" r)) pre ->
  cell_of papers_df "direction" bad = CNaN ->
  evidence_stream papers_df (CStr name) log =
    (Raise (AttributeError "'float' object has no attribute 'upper'"),
     log ++ StEvidenceStream (CStr name) :: map (card_of papers_df) pre).
Proof.
  intros Hcols Hrec Htext Hnan. apply Forall_cons in Hcols as [Hdrug Hcols].
  assert (~ is_text (cell_of papers_df "direction" bad)) as Hbad
    by (rewrite Hnan; exact (fun H => H)).
  rewrite (stream_lookup _ _ _ (pre ++ bad :: post) Hdrug Hrec);
    [|intros E; apply app_eq_nil in E as [_ E]; discriminate E].
  rewrite (cards_interrupted _ _ _ _ _ Hcols Htext Hbad). by rewrite <- app_assoc.
Qed.

(** X17. With the frame that stands in for a missing papers file, the
    inspector cannot profile any candidate to the end: the only run that
    returns is the one in which no candidate matches the search. *)
Theorem inspector_needs_papers (final_df : DataFrame) (s : Session)
    (log log' : list (event Figure)) :
  candidate_inspector final_df empty_frame s log = (Ok tt, log') ->
  exists l, log' = l ++ [StInfo "No drugs found matching criteria."].
Proof.
  unfold App.candidate_inspector, bind, lift, emit, modify.
  repeat match goal with
         | |- context [match ?x with _ => _ end] =>
             lazymatch x with
             | context [match _ with _ => _ end] => fail
             | _ => destruct x eqn:?
             end; simpl; try discriminate
         end.
  all: intros [= <-]; by eexists.
Qed.

(** X19. When the confidence filter raises on a ranked table that has
    rows (no confidence column, or text in it), the dashboard ends with that
    exception right after the Landscape header: no chart, no leaderboard and
    no inspector are drawn. *)
Theorem filter_error_stops_dashboard (s : Session) (fs : gmap string (file Model))
    (final_df : DataFrame) (e : exn) :
  fs !! FINAL_PATH = Some (CsvFile final_df) ->
  (fs !! PAPERS_PATH = None \/ exists papers_df, fs !! PAPERS_PATH = Some (CsvFile papers_df)) ->
  df_empty final_df = false ->
  filter_candidates final_df (min_confidence s) = Raise e ->
  exists trace,
    analysis_dashboard s fs [] =
      (Raise e,
       trace ++ [StMarkdown "### Real-time Candidate Prioritization";
                 StMetric "Candidates Screened" (DCount (length (rows final_df)));
                 StDivider;
                 StSubheader "Landscape Analysis";
                 StMarkdown "Visualizing candidate distribution: **Biological Mechanism** vs. **Literature Evidence**."]) /\
    Forall loading trace.
Proof.
  intros Hf Hp Hne Hfilter.
  destruct (load_data_reads_stored fs [] final_df Hf) as [Hboth Hone].
  assert (exists papers_df trace,
            load_data fs [] = (Ok (final_df, papers_df), trace) /\ Forall loading trace)
    as (papers_df & trace & Hl & Ht).
  { destruct Hp as [Hp|[papers_df Hp]].
    - eexists _, _. split; [by apply Hone|]. repeat constructor.
    - eexists _, _. split; [by apply Hboth|]. repeat constructor. }
  exists trace. split; [|done].
  unfold App.analysis_dashboard, bind at 1. rewrite Hl.
  unfold bind at 1, emit at 1, modify. unfold App.status_check. rewrite Hne.
  unfold bind, emit, modify, lift. rewrite Hfilter. by rewrite <- !app_assoc.
Qed.

End Script.

End DashboardFacts.

(** ** Further statements on the sample instance *)

Module MoreRuns.

Import Phase1 App Sample.

Lemma missing_metadata_raises_witness :
  exists c, c ∈ METADATA /\ (c ∉ columns short_compounds) /\
            run short_compounds used = (Raise (KeyError c), used).
Proof.
  apply (Phase1Run.missing_metadata_raises nat (nat * nat) split_first count_fit
           predict_positive agreement no_report short_compounds used "Inchi").
  - apply list_elem_of_In. simpl. tauto.
  - apply FrameFacts.col_index_None. reflexivity.
Defined.

Lemma run_writes_two_files_witness :
  exists r w',
    run compounds used = (Ok r, w') /\
    fs w' !! MODEL_PATH = Some (PickleFile (model r)) /\
    fs w' !! CSV_PATH = Some (CsvFile (final_list r)) /\
    forall p, p <> MODEL_PATH -> p <> CSV_PATH -> fs w' !! p = fs used !! p.
Proof.
  exists trained, (run compounds used).2. split; [reflexivity|].
  apply (Phase1Run.run_writes_two_files nat (nat * nat) split_first count_fit
           predict_positive agreement no_report compounds used).
  reflexivity.
Defined.

Lemma rerun_overwrites_witness :
  exists r w1 w2,
    run compounds fresh = (Ok r, w1) /\
    run compounds w1 = (Ok r, w2) /\ fs w2 = fs w1.
Proof.
  destruct (Phase1Run.rerun_overwrites nat (nat * nat) split_first count_fit
              predict_positive agreement no_report Runs.split_first_seeded
              Runs.count_fit_seeded compounds fresh (run compounds fresh).2 trained
              eq_refl)
    as (w2 & H2 & H3).
  exists trained, (run compounds fresh).2, w2.
  split; [reflexivity|]. split; [exact H2|exact H3].
Defined.

Lemma features_exclude_metadata_witness :
  exists features,
    drop_columns compounds METADATA = Ok features /\
    length (values features) = length (rows compounds) /\
    length (target compounds) = length (rows compounds) /\
    Forall (fun c => c ∉ columns features) METADATA.
Proof.
  exists (mkFrame ["MW"; "logP"]
            [[CNum 194; CNum (-7 # 100)]; [CNum 266; CNum (16 # 100)];
             [CNum 285; CNum (282 # 100)]]).
  split; [reflexivity|].
  apply (Phase1Run.features_exclude_metadata compounds). reflexivity.
Defined.

Lemma features_keep_values_witness :
  exists features row',
    drop_columns compounds METADATA = Ok features /\
    values features !! 1 = Some row' /\
    cell_of features "MW" row' = CNum 266.
Proof.
  destruct (Phase1Run.features_keep_values compounds
              (mkFrame ["MW"; "logP"]
                 [[CNum 194; CNum (-7 # 100)]; [CNum 266; CNum (16 # 100)];
                  [CNum 285; CNum (282 # 100)]])
              "MW" 1
              (compound "atenolol" "CC(C)NCC(O)COC1=CC=C(CC(N)=O)C=C1" (CStr "BBB-") 266
                 (16 # 100)))
    as (row' & H1 & H2).
  - reflexivity.
  - apply FrameFacts.mem_false. reflexivity.
  - apply list_elem_of_In. simpl. tauto.
  - reflexivity.
  - eexists _, row'. split; [reflexivity|]. split; [exact H1|exact H2].
Defined.

Lemma candidates_are_positive_class_witness :
  exists r w',
    run compounds fresh = (Ok r, w') /\
    target compounds =
      map (fun row => map_dict LABEL_CODES (cell_of compounds LABEL row)) (rows compounds) /\
    rows (final_list r) =
      map (name_smiles compounds)
        (filter (fun row => map_dict LABEL_CODES (cell_of compounds LABEL row) = CNum 1)
           (rows compounds)).
Proof.
  exists trained, (run compounds fresh).2. split; [reflexivity|].
  apply (Phase1Run.candidates_are_positive_class nat (nat * nat) split_first count_fit
           predict_positive agreement no_report compounds fresh (run compounds fresh).2).
  reflexivity.
Defined.

Lemma no_positive_writes_header_only_witness :
  exists r w',
    run impermeable used = (Ok r, w') /\
    fs w' !! CSV_PATH = Some (CsvFile (mkFrame ["compound_name"; "SMILES"] [])).
Proof.
  exists trained_impermeable, (run impermeable used).2. split; [reflexivity|].
  apply (Phase1Run.no_positive_writes_header_only nat (nat * nat) split_first count_fit
           predict_positive agreement no_report impermeable used (run impermeable used).2
           trained_impermeable).
  - reflexivity.
  - repeat constructor; discriminate.
Defined.

Lemma unreadable_papers_discard_ranked_witness :
  load_data unit nat papers_corrupt [] =
    (Ok (empty_frame, empty_frame),
     [OsPathExists FINAL_PATH true; ReadCsv FINAL_PATH;
      OsPathExists PAPERS_PATH true; ReadCsv PAPERS_PATH;
      StError (ParserError PAPERS_PATH)]).
Proof.
  apply (DashboardFacts.unreadable_papers_discard_ranked unit nat papers_corrupt []
           ranked OtherFile).
  - reflexivity.
  - reflexivity.
  - intros p. discriminate.
Defined.

Lemma dashboard_stops_without_candidates_witness :
  exists trace,
    dashboard first_visit ranked_header_only =
      (Raise StopException,
       trace ++ [StMarkdown "### Real-time Candidate Prioritization";
                 StMetric "Candidates" (DCount 0);
                 StWarning "Data Pipeline Output Not Found: `final_ranked_candidates.csv`"]) /\
    Forall loading trace.
Proof.
  apply (DashboardFacts.dashboard_stops_without_candidates unit nat plot contains_nothing
           no_int first_visit ranked_header_only).
  intros df H. vm_compute in H. injection H as <-. reflexivity.
Defined.

Lemma ranking_confidence_numeric :
  Forall (fun r => ~ is_text (cell_of ranking "confidence" r)) (rows ranking).
Proof. repeat constructor; simpl; tauto. Qed.

Lemma confidence_filter_exact_witness :
  filter_candidates ranking 1 =
    Ok (mkFrame (columns ranking)
          (List.filter (fun r => confident 1 (cell_of ranking "confidence" r))
             (rows ranking))) /\
  forall out r, filter_candidates ranking 1 = Ok out ->
    cell_of ranking "confidence" r = CNaN -> r ∉ rows out.
Proof.
  apply (DashboardFacts.confidence_filter_exact ranking 1).
  - apply list_elem_of_In. simpl. tauto.
  - exact ranking_confidence_numeric.
Defined.

Lemma confidence_filter_monotone_witness :
  exists out out',
    filter_candidates ranking (1 # 4) = Ok out /\
    filter_candidates ranking 1 = Ok out' /\
    columns out' = columns out /\ sublist (rows out') (rows out).
Proof.
  assert (1 # 4 <= 1)%Q as Hle by (unfold Qle; simpl; lia).
  destruct (DashboardFacts.confidence_filter_monotone ranking
              (mkFrame (columns ranking)
                 (List.filter (fun r => confident (1 # 4) (cell_of ranking "confidence" r))
                    (rows ranking))) (1 # 4) 1 Hle eq_refl)
    as (out' & H1 & H2 & H3).
  exists (mkFrame (columns ranking)
                 (List.filter (fun r => confident (1 # 4) (cell_of ranking "confidence" r))
                    (rows ranking))), out'.
  split; [reflexivity|]. split; [exact H1|]. split; [exact H2|exact H3].
Defined.

Lemma confidence_filter_rejects_text_witness :
  filter_candidates ranking_with_text 0 =
    Raise (TypeError "'>=' not supported between instances of 'str' and 'float'").
Proof.
  apply (DashboardFacts.confidence_filter_rejects_text ranking_with_text 0
           [CStr "memantine"; CNum (81 # 100); CNum (8 # 10); CNum (6 # 10); CNum 10;
            CStr "high"; CStr "mouse"; CNum 4]).
  - apply list_elem_of_In. simpl. tauto.
  - apply list_elem_of_In. simpl. tauto.
  - exact I.
Defined.

Lemma leaderboard_shows_first_rows_witness :
  leaderboard nat ranking 2 [] =
    (Ok tt,
     [StSubheader "Priority Leaderboard";
      StDataframe
        (mkFrame DISPLAY_COLS
           (map (fun r => map (fun c => cell_of ranking c r) DISPLAY_COLS)
              (take 2 (rows ranking))))
        COLUMN_CONFIG]).
Proof.
  apply (DashboardFacts.leaderboard_shows_first_rows nat ranking 2 []).
  - repeat constructor; apply list_elem_of_In; simpl; tauto.
  - discriminate.
Defined.

Lemma papers_card_columns :
  Forall (fun c => c ∈ columns papers) ("drug" :: CARD_COLS).
Proof. repeat constructor; apply list_elem_of_In; simpl; tauto. Qed.

Lemma evidence_stream_draws_cards_witness :
  evidence_stream nat papers (CStr "memantine") [] =
    (Ok tt,
     [StEvidenceStream (CStr "memantine");
      StEvidenceCard "#00E5FF" (CStr "T1") (CNum 2019) (CStr "mouse") "positive" (CStr "o1");
      StEvidenceCard "#FF5252" (CStr "T3") (CNum 2021) (CStr "mouse") "neutral" (CStr "o3")]) /\
  2 <= EVIDENCE_LIMIT.
Proof.
  apply (DashboardFacts.evidence_stream_draws_cards nat papers "memantine" []
           [[CStr "memantine"; CStr "T1"; CNum 2019; CStr "mouse"; CStr "positive"; CStr "o1"];
            [CStr "memantine"; CStr "T3"; CNum 2021; CStr "mouse"; CStr "neutral"; CStr "o3"]]).
  - exact papers_card_columns.
  - reflexivity.
  - discriminate.
  - repeat constructor.
Defined.

Lemma evidence_stream_stops_at_gap_witness :
  evidence_stream nat papers_with_gap (CStr "memantine") [] =
    (Raise (AttributeError "'float' object has no attribute 'upper'"),
     [StEvidenceStream (CStr "memantine");
      StEvidenceCard "#00E5FF" (CStr "T1") (CNum 2019) (CStr "mouse") "positive" (CStr "o1")]).
Proof.
  apply (DashboardFacts.evidence_stream_stops_at_gap nat papers_with_gap "memantine" []
           [[CStr "memantine"; CStr "T1"; CNum 2019; CStr "mouse"; CStr "positive"; CStr "o1"]]
           [[CStr "memantine"; CStr "T3"; CNum 2021; CStr "mouse"; CStr "neutral"; CStr "o3"]]
           [CStr "memantine"; CStr "T2"; CNum 2020; CStr "rat"; CNaN; CStr "o2"]).
  - repeat constructor; apply list_elem_of_In; simpl; tauto.
  - reflexivity.
  - repeat constructor.
  - reflexivity.
Defined.

Lemma filter_error_stops_dashboard_witness :
  exists trace,
    dashboard first_visit text_ranking_only =
      (Raise (TypeError "'>=' not supported between instances of 'str' and 'float'"),
       trace ++ [StMarkdown "### Real-time Candidate Prioritization";
                 StMetric "Candidates Screened" (DCount 1);
                 StDivider;
                 StSubheader "Landscape Analysis";
                 StMarkdown "Visualizing candidate distribution: **Biological Mechanism** vs. **Literature Evidence**."]) /\
    Forall loading trace.
Proof.
  apply (DashboardFacts.filter_error_stops_dashboard unit nat plot contains_nothing no_int
           first_visit text_ranking_only ranking_with_text).
  - reflexivity.
  - left. reflexivity.
  - reflexivity.
  - reflexivity.
Defined.

Lemma inspector_needs_papers_witness :
  exists l,
    (candidate_inspector nat contains_nothing no_int ranking empty_frame searching []).2 =
    l ++ [StInfo "No drugs found matching criteria."].
Proof.
  apply (DashboardFacts.inspector_needs_papers nat contains_nothing no_int ranking
           searching []).
  reflexivity.
Defined.

Lemma inspected_row_is_first_match_witness :
  iloc0 (loc_mask ranking
           (eq_scalar [CStr "memantine"; CStr "donepezil"; CStr "riluzole"; CStr "memantine"]
              (CStr "memantine"))) =
  Ok (columns ranking,
      [CStr "memantine"; CNum (81 # 100); CNum (8 # 10); CNum (6 # 10); CNum 10;
       CNum 72; CStr "mouse"; CNum 4]).
Proof.
  apply (DashboardFacts.inspected_row_is_first_match ranking "memantine" []
           (drop 1 (rows ranking))
           [CStr "memantine"; CNum (81 # 100); CNum (8 # 10); CNum (6 # 10); CNum 10;
            CNum 72; CStr "mouse"; CNum 4]).
  - reflexivity.
  - constructor.
  - reflexivity.
  - reflexivity.
Defined.

End MoreRuns.
